(** * F5 BIG-IP profile modules: a shallow embedding

    The development embeds the parts of the collection that carry logic:

    - [plugins/modules/bigip_profile_http.py] and
      [plugins/modules/bigip_profile_tcp.py]: the parameter accessors
      ([ModuleParameters], [ReportableChanges]), the field-by-field
      [Difference] and the [ModuleManager] that talks to the device;
    - [plugins/action/bigiq.py]: the connection adapter [ActionModule.run].

    Python values are an inductive type, [None] is [option]'s [None],
    exceptions are an inductive type carried by a result type, and the
    device is an explicit state threaded through a small state-and-error
    monad that also keeps the log of REST calls. *)

From Stdlib Require Import ZArith List String Ascii Bool Lia.
From Stdlib Require Import Numbers.DecimalString Numbers.DecimalZ Numbers.DecimalPos.
Import ListNotations.

Local Open Scope string_scope.
Local Open Scope Z_scope.

(* ===================================================================== *)
(** * Python values, equality, truthiness *)
(* ===================================================================== *)

(** The values the two modules handle: the argument specification gives
    every parameter the type str, bool, int or list (of strings), and the
    device answers with JSON scalars and lists of strings.  No updatable
    parameter is a dictionary. *)
Inductive pyval : Type :=
| VBool (b : bool)
| VInt (z : Z)
| VStr (s : string)
| VList (l : list string).

(** A Python object reference: [None] or a value. *)
Definition pyobj : Type := option pyval.

Fixpoint list_eqb (l1 l2 : list string) : bool :=
  match l1, l2 with
  | [], [] => true
  | x :: r1, y :: r2 => String.eqb x y && list_eqb r1 r2
  | _, _ => false
  end.

Definition Z_of_bool (b : bool) : Z := if b then 1 else 0.

(** Python's [==] on these values; [bool] is a subclass of [int], so
    [True == 1]. *)
Definition py_eq (a b : pyval) : bool :=
  match a, b with
  | VBool x, VBool y => Bool.eqb x y
  | VBool x, VInt y => Z_of_bool x =? y
  | VInt x, VBool y => x =? Z_of_bool y
  | VInt x, VInt y => x =? y
  | VStr x, VStr y => String.eqb x y
  | VList x, VList y => list_eqb x y
  | _, _ => false
  end.

(** [==] on references: [None] equals only [None]. *)
Definition obj_eq (a b : pyobj) : bool :=
  match a, b with
  | None, None => true
  | Some x, Some y => py_eq x y
  | _, _ => false
  end.

(** [x in [c1, c2, ...]]. *)
Definition obj_in (a : pyobj) (cs : list pyobj) : bool :=
  existsb (obj_eq a) cs.

(** Truth value of an object, as [if x:] and [not x] take it. *)
Definition truthy (a : pyobj) : bool :=
  match a with
  | None => false
  | Some (VBool b) => b
  | Some (VInt z) => negb (z =? 0)
  | Some (VStr s) => negb (String.eqb s "")
  | Some (VList l) => match l with [] => false | _ => true end
  end.

(** Membership of a string in a list, [x in l]. *)
Definition mem (x : string) (l : list string) : bool :=
  existsb (String.eqb x) l.

(** [set(a) <= set(b)] and [set(a) == set(b)] on lists. *)
Definition subset (a b : list string) : bool :=
  forallb (fun x => mem x b) a.

Definition set_eq (a b : list string) : bool :=
  subset a b && subset b a.

(* ===================================================================== *)
(** * Exceptions and results *)
(* ===================================================================== *)

Inductive exn : Type :=
| F5ModuleError (arg : pyval)
| ValueError (msg : string)
| KeyError (key : string)
| AttributeError (name : string)
| TypeError.

Inductive result (A : Type) : Type :=
| Ok (a : A)
| Raise (e : exn).

Arguments Ok {A} a.
Arguments Raise {A} e.

Definition rbind {A B} (r : result A) (k : A -> result B) : result B :=
  match r with
  | Ok a => k a
  | Raise e => Raise e
  end.

Declare Scope res_scope.
Delimit Scope res_scope with res.
Notation "'let?' x ':=' r 'in' k" := (rbind r (fun x => k))
  (at level 10, x name, r at level 100, k at level 200) : res_scope.

(* ===================================================================== *)
(** * [int(str)] and [str(int)] *)
(* ===================================================================== *)

(** ASCII white space as [str.strip] and [int] see it. *)
Definition is_space (c : ascii) : bool :=
  let n := nat_of_ascii c in
  ((9 <=? n) && (n <=? 13) || (28 <=? n) && (n <=? 32))%nat.

Fixpoint lstrip (s : string) : string :=
  match s with
  | EmptyString => EmptyString
  | String c r => if is_space c then lstrip r else s
  end.

Fixpoint rstrip (s : string) : string :=
  match s with
  | EmptyString => EmptyString
  | String c r =>
      let r' := rstrip r in
      if is_space c && String.eqb r' "" then EmptyString else String c r'
  end.

Definition strip (s : string) : string := rstrip (lstrip s).

(** A string without white space. *)
Fixpoint no_space (s : string) : bool :=
  match s with
  | EmptyString => true
  | String c r => negb (is_space c) && no_space r
  end.

(** White space as [int] skips it around a numeral: tab, line feed,
    vertical tab, form feed, carriage return and the space.  (The
    separators 28..31, which [str.strip] removes, are not among them.) *)
Definition is_int_space (c : ascii) : bool :=
  let n := nat_of_ascii c in
  ((9 <=? n) && (n <=? 13) || (n =? 32))%nat.

Fixpoint int_lstrip (s : string) : string :=
  match s with
  | EmptyString => EmptyString
  | String c r => if is_int_space c then int_lstrip r else s
  end.

Fixpoint int_rstrip (s : string) : string :=
  match s with
  | EmptyString => EmptyString
  | String c r =>
      let r' := int_rstrip r in
      if is_int_space c && String.eqb r' "" then EmptyString else String c r'
  end.

Fixpoint no_int_space (s : string) : bool :=
  match s with
  | EmptyString => true
  | String c r => negb (is_int_space c) && no_int_space r
  end.

(** The digits of a numeral with its grouping underscores taken out: an
    underscore may only stand between two digits.  [after_digit] tells
    whether the character before was a digit. *)
Fixpoint ungroup (after_digit : bool) (s : string) : option string :=
  match s with
  | EmptyString => if after_digit then Some EmptyString else None
  | String c r =>
      if Ascii.eqb c "_" then
        if after_digit then ungroup false r else None
      else option_map (String c) (ungroup true r)
  end.

Definition py_digits (s : string) : option Decimal.uint :=
  match ungroup false s with
  | Some d => NilZero.uint_of_string d
  | None => None
  end.

(** [int(s)] for a string of ASCII characters: white space around the
    numeral is skipped, one sign is allowed, the rest is a non-empty run of
    decimal digits, which single underscores may group.  [None] stands for
    the [ValueError] Python raises. *)
Definition py_int (s : string) : option Z :=
  match int_rstrip (int_lstrip s) with
  | EmptyString => None
  | String c r =>
      if Ascii.eqb c "+" then
        option_map (fun d => Z.of_int (Decimal.Pos d)) (py_digits r)
      else if Ascii.eqb c "-" then
        option_map (fun d => Z.of_int (Decimal.Neg d)) (py_digits r)
      else option_map (fun d => Z.of_int (Decimal.Pos d)) (py_digits (String c r))
  end.

(** [str(n)] for an integer. *)
Definition py_str (n : Z) : string := NilZero.string_of_int (Z.to_int n).

(** [int(x)] on a value: integers and booleans convert, strings are
    parsed, a list is a [TypeError]. *)
Definition int_of (v : pyval) : result Z :=
  match v with
  | VInt z => Ok z
  | VBool b => Ok (Z_of_bool b)
  | VStr s => match py_int s with
              | Some z => Ok z
              | None => Raise (ValueError s)
              end
  | VList _ => Raise TypeError
  end.

(** [str(x)] on a value: the decimal numeral of an integer, a string as it
    is, [True]/[False], and for a list its display with quoted items. *)
Definition str_of (v : pyval) : string :=
  match v with
  | VInt z => py_str z
  | VStr s => s
  | VBool true => "True"
  | VBool false => "False"
  | VList l => "[" ++ String.concat ", " (map (fun x => "'" ++ x ++ "'") l) ++ "]"
  end.

(* ===================================================================== *)
(** * Helpers of [module_utils/network/f5/common.py] *)
(* ===================================================================== *)

(** Modelled from the spec: the values [flatten_boolean] of
    [module_utils/network/f5/common.py] (not among the sources) takes for
    true: the boolean [True] and the spellings [yes], [on], [1], [true],
    [True] and [enabled]. *)
Definition affirmative (v : pyval) : bool :=
  match v with
  | VBool b => b
  | VInt z => z =? 1
  | VStr s => mem s ["yes"; "on"; "1"; "true"; "True"; "enabled"]
  | VList _ => false
  end.

(** Modelled from the spec: [flatten_boolean] of
    [module_utils/network/f5/common.py] is imported by both modules and is
    not among the sources.  The spec names it as the boolean /
    enable-disable translation: [None] stays [None], a value that stands
    for true becomes ['yes'], and a value that stands for false becomes
    ['no']. *)
Definition flatten_boolean (value : pyobj) : pyobj :=
  match value with
  | None => None
  | Some v => if affirmative v then Some (VStr "yes") else Some (VStr "no")
  end.

(** The pattern every boolean accessor of [ModuleParameters] repeats:
    [result = flatten_boolean(v)], [None] if [result is None], ['enabled']
    if [result == 'yes'], ['disabled'] otherwise. *)
Definition enabled_of_boolean (v : pyobj) : pyobj :=
  let result := flatten_boolean v in
  match result with
  | None => None
  | Some r => if py_eq r (VStr "yes") then Some (VStr "enabled")
              else Some (VStr "disabled")
  end.

(** The pattern of the written-out reporters: [None] stays, ['enabled']
    becomes ['yes'], anything else ['no']. *)
Definition yes_of_enabled (v : pyobj) : pyobj :=
  match v with
  | None => None
  | Some w => if py_eq w (VStr "enabled") then Some (VStr "yes")
              else Some (VStr "no")
  end.

(** A range-checked integer parameter: [None] stays, a value inside
    [lo..hi] is returned, anything else raises [msg]. *)
Definition in_range (lo hi : Z) (n : Z) : bool := (lo <=? n) && (n <=? hi).

(** A parameter with a sentinel word: [None] stays, the sentinel folds to
    [dflt], otherwise [int(v)] must lie in [lo..hi]. *)
Definition folded_range (sentinel : string) (dflt lo hi : Z) (msg : string)
    (v : pyobj) : result pyobj :=
  match v with
  | None => Ok None
  | Some x =>
      if py_eq x (VStr sentinel) then Ok (Some (VInt dflt))
      else (let? n := int_of x in
            if in_range lo hi n then Ok (Some (VInt n))
            else Raise (F5ModuleError (VStr msg)))%res
  end.

(** The reverse fold of the reporters that answer with a string: [None]
    stays, the default number becomes the sentinel, otherwise [str(v)]. *)
Definition unfold_str (sentinel : string) (dflt : Z) (v : pyobj) : pyobj :=
  match v with
  | None => None
  | Some x => if py_eq x (VInt dflt) then Some (VStr sentinel)
              else Some (VStr (str_of x))
  end.

(** The reverse fold of the reporters that answer with [int(v)]. *)
Definition unfold_int (sentinel : string) (dflt : Z) (v : pyobj) : result pyobj :=
  match v with
  | None => Ok None
  | Some x => if py_eq x (VInt dflt) then Ok (Some (VStr sentinel))
              else (let? n := int_of x in Ok (Some (VInt n)))%res
  end.

(* ===================================================================== *)
(** * The REST layer and the manager's state *)
(* ===================================================================== *)

(** A Python [dict] with string keys, in insertion order. *)
Definition dict : Type := list (string * pyval).

Fixpoint dict_get (k : string) (d : dict) : pyobj :=
  match d with
  | [] => None
  | (k', v) :: r => if String.eqb k k' then Some v else dict_get k r
  end.

(** [d[k] = v]: an existing key keeps its place, a new one goes last. *)
Fixpoint dict_set (k : string) (v : pyval) (d : dict) : dict :=
  match d with
  | [] => [(k, v)]
  | (k', v') :: r =>
      if String.eqb k k' then (k', v) :: r else (k', v') :: dict_set k v r
  end.

(** [d.pop(k, default)], the dictionary that remains. *)
Fixpoint dict_pop (k : string) (d : dict) : dict :=
  match d with
  | [] => []
  | (k', v') :: r =>
      if String.eqb k k' then r else (k', v') :: dict_pop k r
  end.

Definition dict_keys (d : dict) : list string := map fst d.

(** What a parameter object ([ModuleParameters], [ApiParameters]) answers
    to [getattr(obj, name)]: a value, [None], or an exception.  The generic
    lookup lives in [AnsibleF5Parameters], which is not among the sources,
    so the objects are taken by their answers. *)
Definition view : Type := string -> result pyobj.

Inductive verb : Type := GET | POST | PATCH | DELETE.

(** The two URIs a manager builds: the collection
    [/mgmt/tm/ltm/profile/<kind>/] and the profile
    [/mgmt/tm/ltm/profile/<kind>/<transform_name(partition, name)>]. *)
Inductive uri : Type :=
| Collection (kind : string)
| Item (kind partition name : string).

Record request : Type := {
  req_verb : verb;
  req_uri : uri;
  req_json : option dict
}.

(** A parsed response body: its scalar and list members, and its members
    that are objects themselves ([enforcement], [sflow], [hsts],
    [explicitProxy]). *)
Record jbody : Type := {
  fields : dict;
  objects : list (string * dict)
}.

Definition no_body : jbody := {| fields := []; objects := [] |}.

Fixpoint object_get (k : string) (os : list (string * dict)) : option dict :=
  match os with
  | [] => None
  | (k', d) :: r => if String.eqb k k' then Some d else object_get k r
  end.

(** A response: [status], the raw [content], and what [resp.json()]
    does: raise [ValueError] with a message ([inl]) or return the parsed
    object ([inr]).  The device is taken to answer with JSON objects, as
    the REST API does; a body that parses to anything else is treated in
    [exists_any] below. *)
Record response : Type := {
  status : Z;
  content : string;
  json : string + jbody
}.

(** ['code' in response and response['code'] in codes]. *)
Definition code_in (response : jbody) (codes : list Z) : bool :=
  match dict_get "code" (fields response) with
  | None => false
  | Some c => existsb (fun n => py_eq c (VInt n)) codes
  end.

(** The shared tail of the REST calls: a listed error code raises the
    response's [message] when it has one and the raw content otherwise. *)
Definition raise_on_codes {A} (resp : response) (response : jbody)
    (codes : list Z) (otherwise : result A) : result A :=
  if code_in response codes then
    match dict_get "message" (fields response) with
    | Some m => Raise (F5ModuleError m)
    | None => Raise (F5ModuleError (VStr (content resp)))
    end
  else otherwise.

(** Modelled from the spec: the generic attribute lookup of
    [AnsibleF5Parameters] ([module_utils/network/f5/common.py], not among
    the sources).  The spec's data model maps the vendor's field names to
    the user-facing names through the static table [api_map]: an attribute
    reads the response member that the table sends to it (or the member of
    its own name), and [None] when the response has no such member. *)
Definition api_name (api_map : list (string * string)) (attr : string)
    : string :=
  match find (fun p => String.eqb (snd p) attr) api_map with
  | Some (api, _) => api
  | None => attr
  end.

Definition stored (api_map : list (string * string)) (response : jbody)
    (attr : string) : pyobj :=
  dict_get (api_name api_map attr) (fields response).

(** [self._values[obj][key]]: a missing object is [None], which cannot be
    subscripted; a missing key is a [KeyError]. *)
Definition item (obj key : string) (response : jbody) : result pyobj :=
  match object_get obj (objects response) with
  | None => Raise TypeError
  | Some d =>
      match dict_get key d with
      | Some v => Ok (Some v)
      | None => Raise (KeyError key)
      end
  end.

(** The same behind an [is None] guard. *)
Definition guarded_item (obj key : string) (response : jbody) : result pyobj :=
  match object_get obj (objects response) with
  | None => Ok None
  | Some d =>
      match dict_get key d with
      | Some v => Ok (Some v)
      | None => Raise (KeyError key)
      end
  end.

Section Manager.

(** The device behind [self.client.api]: a state and its reaction to a
    request. *)
Variable device : Type.
Variable api : request -> device -> response * device.

(** Absent helpers, taken as they are used: [ApiParameters(params=...)],
    [UsableChanges(params=changed).api_params()] (which evaluates the
    [UsableChanges] properties and so may raise), and the two
    [to_return] calls of [exec_module] (which swallow every exception). *)
Variable ApiParameters : jbody -> view.
Variable api_params : dict -> result dict.
Variable reportable : dict -> dict.

(** What differs between the two modules. *)
Variable kind : string.
Variable updatables returnables : list string.
Variable properties : string -> option (view -> view -> result pyobj).
Variable create_defaults : view -> result view.

(** The module's own settings. *)
Variable name partition : string.
Variable state : string.
Variable check_mode : bool.

(** [self]: the client's device with the log of the calls made so far,
    and the three mutable attributes. *)
Record manager : Type := {
  dev : device;
  log : list request;
  want : view;
  have : view;
  changes : dict
}.

(** Computations on [self] that may raise. *)
Definition M (A : Type) : Type := manager -> result A * manager.

Definition ret {A} (a : A) : M A := fun self => (Ok a, self).
Definition throw {A} (e : exn) : M A := fun self => (Raise e, self).
Definition bind {A B} (c : M A) (k : A -> M B) : M B :=
  fun self => match c self with
              | (Ok a, self') => k a self'
              | (Raise e, self') => (Raise e, self')
              end.
Definition lift {A} (r : result A) : M A := fun self => (r, self).

Notation "x <- c ;; k" := (bind c (fun x => k))
  (at level 61, c at next level, right associativity).
Notation "c ;;; k" := (bind c (fun _ => k))
  (at level 61, right associativity).

(** One call through [self.client.api]. *)
Definition call (v : verb) (u : uri) (body : option dict) : M response :=
  fun self =>
    let rq := {| req_verb := v; req_uri := u; req_json := body |} in
    let (resp, d) := api rq (dev self) in
    (Ok resp, {| dev := d; log := log self ++ [rq]; want := want self;
                 have := have self; changes := changes self |}).

Definition get_want : M view := fun self => (Ok (want self), self).
Definition get_have : M view := fun self => (Ok (have self), self).
Definition get_changes : M dict := fun self => (Ok (changes self), self).
Definition set_want (w : view) : M unit :=
  fun self => (Ok tt, {| dev := dev self; log := log self; want := w;
                         have := have self; changes := changes self |}).
Definition set_have (h : view) : M unit :=
  fun self => (Ok tt, {| dev := dev self; log := log self; want := want self;
                         have := h; changes := changes self |}).
Definition set_changes (c : dict) : M unit :=
  fun self => (Ok tt, {| dev := dev self; log := log self; want := want self;
                         have := have self; changes := c |}).

(** ** Difference *)

Definition Difference_default (w h : view) (param : string) : result pyobj :=
  (let? attr1 := w param in
   match h param with
   | Ok attr2 => if negb (obj_eq attr1 attr2) then Ok attr1 else Ok None
   | Raise (AttributeError _) => Ok attr1
   | Raise e => Raise e
   end)%res.

Definition Difference_compare (w h : view) (param : string) : result pyobj :=
  match properties param with
  | Some property =>
      match property w h with
      | Raise (AttributeError _) => Difference_default w h param
      | r => r
      end
  | None => Difference_default w h param
  end.

(** ** ModuleManager *)

(** The loop of [_set_changed_options]. *)
Fixpoint set_loop (w : view) (keys : list string) (changed : dict) : result dict :=
  match keys with
  | [] => Ok changed
  | key :: rest =>
      (let? v := w key in
       match v with
       | None => set_loop w rest changed
       | Some x => set_loop w rest (dict_set key x changed)
       end)%res
  end.

Definition _set_changed_options : M unit :=
  w <- get_want ;;
  changed <- lift (set_loop w returnables []) ;;
  match changed with
  | [] => ret tt
  | _ => set_changes changed
  end.

(** The loop of [_update_changed_options]; no change is a dictionary, so
    every change is stored under its own key. *)
Fixpoint update_loop (w h : view) (keys : list string) (changed : dict)
    : result dict :=
  match keys with
  | [] => Ok changed
  | k :: rest =>
      (let? change := Difference_compare w h k in
       match change with
       | None => update_loop w h rest changed
       | Some c => update_loop w h rest (dict_set k c changed)
       end)%res
  end.

Definition _update_changed_options : M bool :=
  w <- get_want ;;
  h <- get_have ;;
  changed <- lift (update_loop w h updatables []) ;;
  match changed with
  | [] => ret false
  | _ => set_changes changed ;;; ret true
  end.

Definition should_update : M bool :=
  result <- _update_changed_options ;;
  if result then ret true else ret false.

Definition exists_ : M bool :=
  resp <- call GET (Item kind partition name) None ;;
  match json resp with
  | inl _ => ret false
  | inr response =>
      if (status resp =? 404) || code_in response [404] then ret false
      else ret true
  end.

Definition create_on_device : M pyval :=
  c <- get_changes ;;
  params <- lift (api_params c) ;;
  let params := dict_set "partition" (VStr partition)
                  (dict_set "name" (VStr name) params) in
  resp <- call POST (Collection kind) (Some params) ;;
  match json resp with
  | inl ex => throw (F5ModuleError (VStr ex))
  | inr response =>
      lift (raise_on_codes resp response [400; 403; 404]
              match dict_get "selfLink" (fields response) with
              | Some l => Ok l
              | None => Raise (KeyError "selfLink")
              end)
  end.

Definition update_on_device : M unit :=
  c <- get_changes ;;
  params <- lift (api_params c) ;;
  resp <- call PATCH (Item kind partition name) (Some params) ;;
  match json resp with
  | inl ex => throw (F5ModuleError (VStr ex))
  | inr response => lift (raise_on_codes resp response [400; 404] (Ok tt))
  end.

Definition remove_from_device : M bool :=
  response <- call DELETE (Item kind partition name) None ;;
  if status response =? 200 then ret true
  else throw (F5ModuleError (VStr (content response))).

Definition read_current_from_device : M view :=
  resp <- call GET (Item kind partition name) None ;;
  match json resp with
  | inl ex => throw (F5ModuleError (VStr ex))
  | inr response =>
      lift (raise_on_codes resp response [400] (Ok (ApiParameters response)))
  end.

Definition update : M bool :=
  h <- read_current_from_device ;;
  set_have h ;;;
  changed <- should_update ;;
  if negb changed then ret false
  else if check_mode then ret true
  else update_on_device ;;; ret true.

Definition remove : M bool :=
  if check_mode then ret true
  else
    remove_from_device ;;;
    still <- exists_ ;;
    if still then throw (F5ModuleError (VStr "Failed to delete the resource."))
    else ret true.

Definition create : M bool :=
  w <- get_want ;;
  w' <- lift (create_defaults w) ;;
  set_want w' ;;;
  _set_changed_options ;;;
  if check_mode then ret true
  else create_on_device ;;; ret true.

Definition present : M bool :=
  e <- exists_ ;;
  if e then update else create.

Definition absent : M bool :=
  e <- exists_ ;;
  if e then remove else ret false.

(** [exec_module]: the reported changes, then the [changed] flag, then
    [_announce_deprecations] takes [__warnings] out. *)
Definition exec_module : M dict :=
  changed <- (if String.eqb state "present" then present
              else if String.eqb state "absent" then absent
              else ret false) ;;
  c <- get_changes ;;
  let result := reportable c in
  let result := dict_set "changed" (VBool changed) result in
  ret (dict_pop "__warnings" result).

End Manager.

Arguments dev {device}.
Arguments log {device}.
Arguments want {device}.
Arguments have {device}.
Arguments changes {device}.

(* ===================================================================== *)
(** * bigip_profile_http.py: parameter accessors *)
(* ===================================================================== *)

Module Http.

(** The [enforcement] and [sflow] sub-dictionaries of the module
    arguments; a sub-option the user leaves out is [None]. *)
Record enforcement_args : Type := {
  arg_truncated_redirects : pyobj;
  arg_excess_client_headers : pyobj;
  arg_excess_server_headers : pyobj;
  arg_oversize_client_headers : pyobj;
  arg_oversize_server_headers : pyobj;
  arg_pipeline : pyobj;
  arg_unknown_method : pyobj;
  arg_max_header_count : pyobj;
  arg_max_header_size : pyobj;
  arg_max_requests : pyobj;
  arg_known_methods : option (list string)
}.

Record sflow_args : Type := {
  arg_poll_interval : pyobj;
  arg_poll_interval_global : pyobj;
  arg_sampling_rate : pyobj;
  arg_sampling_rate_global : pyobj
}.

(** An [enforcement] dictionary that sets the three limits, the known
    methods and [truncated_redirects], and leaves the rest out. *)
Definition enforcement_of (count size requests : pyobj)
    (known : option (list string)) (truncated : pyobj) : enforcement_args :=
  {| arg_truncated_redirects := truncated;
     arg_excess_client_headers := None;
     arg_excess_server_headers := None;
     arg_oversize_client_headers := None;
     arg_oversize_server_headers := None;
     arg_pipeline := None;
     arg_unknown_method := None;
     arg_max_header_count := count;
     arg_max_header_size := size;
     arg_max_requests := requests;
     arg_known_methods := known |}.

(** An [sflow] dictionary that sets the two global switches only. *)
Definition sflow_of (poll_global rate_global : pyobj) : sflow_args :=
  {| arg_poll_interval := None;
     arg_poll_interval_global := poll_global;
     arg_sampling_rate := None;
     arg_sampling_rate_global := rate_global |}.

Definition defaults : list string :=
  ["CONNECT"; "DELETE"; "GET"; "HEAD"; "LOCK"; "OPTIONS"; "POST";
   "PROPFIND"; "PUT"; "TRACE"; "UNLOCK"].

Definition is_digit (c : ascii) : bool :=
  let n := nat_of_ascii c in ((48 <=? n) && (n <=? 57))%nat.

(** [(?!([4][0-1][0-7]))\d{3}] matched at the head of [s]. *)
Definition p1_at (s : string) : bool :=
  match s with
  | String a (String b (String c _)) =>
      negb (Ascii.eqb a "4"
            && (Ascii.eqb b "0" || Ascii.eqb b "1")
            && ((48 <=? nat_of_ascii c) && (nat_of_ascii c <=? 55))%nat)
      && is_digit a && is_digit b && is_digit c
  | _ => false
  end.

(** [(?!(50[0-5]))\d{3}] matched at the head of [s]. *)
Definition p2_at (s : string) : bool :=
  match s with
  | String a (String b (String c _)) =>
      negb (Ascii.eqb a "5" && Ascii.eqb b "0"
            && ((48 <=? nat_of_ascii c) && (nat_of_ascii c <=? 53))%nat)
      && is_digit a && is_digit b && is_digit c
  | _ => false
  end.

(** [re.search(p, s)] as a truth value: the pattern matches at some
    position of [s]. *)
Fixpoint re_search (p_at : string -> bool) (s : string) : bool :=
  p_at s || match s with
            | EmptyString => false
            | String _ r => re_search p_at r
            end.

Module ModuleParameters.

Definition accept_xff (v : pyobj) : pyobj := enabled_of_boolean v.
Definition oneconnect_transformations (v : pyobj) : pyobj := enabled_of_boolean v.
Definition insert_xforwarded_for (v : pyobj) : pyobj := enabled_of_boolean v.
Definition include_subdomains (v : pyobj) : pyobj := enabled_of_boolean v.
Definition hsts_mode (v : pyobj) : pyobj := enabled_of_boolean v.

Definition invalid_code : string :=
  "Invalid HTTP error code or error code range specified.".

(** The loop over the codes: the first element matched by both patterns
    raises. *)
Fixpoint check_codes (codes : list string) : result unit :=
  match codes with
  | [] => Ok tt
  | code :: rest =>
      let match_4xx := re_search p1_at code in
      if match_4xx then
        let match_5xx := re_search p2_at code in
        if match_5xx then Raise (F5ModuleError (VStr invalid_code))
        else check_codes rest
      else check_codes rest
  end.

Definition fallback_status_codes (v : option (list string))
    : result (option (list string)) :=
  match v with
  | None => Ok None
  | Some codes => (let? _ := check_codes codes in Ok (Some codes))%res
  end.

Definition maximum_age (v : pyobj) : result pyobj :=
  folded_range "indefinite" 4294967295 0 4294967295
    "Valid 'maximum_age' must be in range 0 - 4294967295, or 'indefinite'." v.

Definition truncated_redirects (enforcement : option enforcement_args) : pyobj :=
  match enforcement with
  | None => None
  | Some e => enabled_of_boolean (arg_truncated_redirects e)
  end.

Definition max_header_count (enforcement : option enforcement_args) : result pyobj :=
  match enforcement with
  | None => Ok None
  | Some e =>
      folded_range "default" 64 16 4096
        "Valid 'max_header_count' must be in range 16 - 4096, or 'default'."
        (arg_max_header_count e)
  end.

Definition max_header_size (enforcement : option enforcement_args) : result pyobj :=
  match enforcement with
  | None => Ok None
  | Some e =>
      folded_range "default" 32768 0 4294967295
        "Valid 'max_header_size' must be in range 0 - 4294967295, or 'default'."
        (arg_max_header_size e)
  end.

Definition max_requests (enforcement : option enforcement_args) : result pyobj :=
  match enforcement with
  | None => Ok None
  | Some e =>
      folded_range "default" 0 0 4294967295
        "Valid 'max_requests' must be in range 0 - 4294967295, or 'default'."
        (arg_max_requests e)
  end.

Definition known_methods (enforcement : option enforcement_args)
    : option (list string) :=
  match enforcement with
  | None => None
  | Some e =>
      match arg_known_methods e with
      | None => None
      | Some known =>
          match known with
          | [k0] =>
              if String.eqb k0 "default" then Some defaults
              else if String.eqb k0 "" then Some []
              else if mem "default" known then
                Some (filter (fun method => negb (String.eqb method "default")) known
                      ++ defaults)%list
              else Some known
          | _ =>
              if mem "default" known then
                Some (filter (fun method => negb (String.eqb method "default")) known
                      ++ defaults)%list
              else Some known
          end
      end
  end.

Definition poll_interval_global (sflow : option sflow_args) : pyobj :=
  match sflow with
  | None => None
  | Some f => flatten_boolean (arg_poll_interval_global f)
  end.

Definition sampling_rate_global (sflow : option sflow_args) : pyobj :=
  match sflow with
  | None => None
  | Some f => flatten_boolean (arg_sampling_rate_global f)
  end.

End ModuleParameters.

Module ReportableChanges.

Definition insert_xforwarded_for (v : pyobj) : pyobj := yes_of_enabled v.
Definition hsts_mode (v : pyobj) : pyobj := yes_of_enabled v.
Definition include_subdomains (v : pyobj) : pyobj := yes_of_enabled v.

Definition maximum_age (v : pyobj) : result pyobj :=
  unfold_int "indefinite" 4294967295 v.

Definition truncated_redirects (v : pyobj) : pyobj := flatten_boolean v.
Definition accept_xff (v : pyobj) : pyobj := flatten_boolean v.
Definition oneconnect_transformations (v : pyobj) : pyobj := flatten_boolean v.

Definition max_header_count (v : pyobj) : pyobj := unfold_str "default" 64 v.
Definition max_header_size (v : pyobj) : pyobj := unfold_str "default" 32768 v.
Definition max_requests (v : pyobj) : pyobj := unfold_str "default" 0 v.

Definition known_methods (known : option (list string)) : option (list string) :=
  match known with
  | None => None
  | Some k =>
      match k with
      | [] => Some [""]
      | _ =>
          if set_eq k defaults then Some ["default"]
          else if subset defaults k then
            Some (filter (fun item => negb (mem item defaults)) k ++ ["default"])%list
          else Some k
      end
  end.

End ReportableChanges.

(** ** ApiParameters *)

Definition api_map : list (string * string) :=
  [ ("defaultsFrom", "parent");
    ("insertXforwardedFor", "insert_xforwarded_for");
    ("redirectRewrite", "redirect_rewrite");
    ("encryptCookies", "encrypt_cookies");
    ("encryptCookieSecret", "encrypt_cookie_secret");
    ("proxyType", "proxy_type");
    ("explicitProxy", "explicit_proxy");
    ("headerErase", "header_erase");
    ("headerInsert", "header_insert");
    ("serverAgentName", "server_agent_name");
    ("includeSubdomains", "include_subdomains");
    ("maximumAge", "maximum_age");
    ("mode", "hsts_mode");
    ("acceptXff", "accept_xff");
    ("xffAlternativeNames", "xff_alternative_names");
    ("fallbackHost", "fallback_host");
    ("fallbackStatusCodes", "fallback_status_codes");
    ("oneconnectTransformations", "oneconnect_transformations");
    ("requestChunking", "request_chunking");
    ("responseChunking", "response_chunking") ].

(** The properties of the class, by name, over the response it was built
    from; every other attribute goes through the generic lookup.
    ([dns_resolver_address], a link object that no comparison reads, is
    left out.) *)
Definition ApiParameters (response : jbody) : view :=
  fun attr =>
    if String.eqb attr "poll_interval" then item "sflow" "pollInterval" response
    else if String.eqb attr "poll_interval_global"
      then item "sflow" "pollIntervalGlobal" response
    else if String.eqb attr "sampling_rate" then item "sflow" "samplingRate" response
    else if String.eqb attr "sampling_rate_global"
      then item "sflow" "samplingRateGlobal" response
    else if String.eqb attr "truncated_redirects"
      then item "enforcement" "truncatedRedirects" response
    else if String.eqb attr "excess_client_headers"
      then item "enforcement" "excessClientHeaders" response
    else if String.eqb attr "excess_server_headers"
      then item "enforcement" "excessServerHeaders" response
    else if String.eqb attr "oversize_client_headers"
      then item "enforcement" "oversizeClientHeaders" response
    else if String.eqb attr "oversize_server_headers"
      then item "enforcement" "oversizeServerHeaders" response
    else if String.eqb attr "pipeline" then item "enforcement" "pipeline" response
    else if String.eqb attr "unknown_method"
      then item "enforcement" "unknownMethod" response
    else if String.eqb attr "max_header_count"
      then item "enforcement" "maxHeaderCount" response
    else if String.eqb attr "max_header_size"
      then item "enforcement" "maxHeaderSize" response
    else if String.eqb attr "max_requests"
      then item "enforcement" "maxRequests" response
    else if String.eqb attr "known_methods" then
      match object_get "enforcement" (objects response) with
      | None => Raise (AttributeError "get")
      | Some d => Ok (dict_get "knownMethods" d)
      end
    else if String.eqb attr "dns_resolver" then
      match object_get "explicitProxy" (objects response) with
      | None => Ok None
      | Some d => Ok (dict_get "dnsResolver" d)
      end
    else if String.eqb attr "include_subdomains"
      then guarded_item "hsts" "includeSubdomains" response
    else if String.eqb attr "hsts_mode" then guarded_item "hsts" "mode" response
    else if String.eqb attr "maximum_age"
      then guarded_item "hsts" "maximumAge" response
    else Ok (stored api_map response attr).

(** ** Difference *)

Definition updatables : list string :=
  ["description"; "insert_xforwarded_for"; "redirect_rewrite";
   "encrypt_cookies"; "encrypt_cookie_secret"; "proxy_type"; "dns_resolver";
   "hsts_mode"; "maximum_age"; "include_subdomains"; "server_agent_name";
   "header_erase"; "header_insert"; "accept_xff"; "xff_alternative_names";
   "fallback_host"; "fallback_status_codes"; "oneconnect_transformations";
   "request_chunking"; "response_chunking"; "truncated_redirects";
   "excess_client_headers"; "excess_server_headers";
   "oversize_client_headers"; "oversize_server_headers"; "pipeline";
   "unknown_method"; "max_header_count"; "max_header_size"; "max_requests";
   "known_methods"; "poll_interval"; "poll_interval_global"; "sampling_rate";
   "sampling_rate_global"].

Definition returnables : list string :=
  ["parent"; "description"; "insert_xforwarded_for"; "redirect_rewrite";
   "encrypt_cookies"; "proxy_type"; "explicit_proxy"; "dns_resolver";
   "hsts_mode"; "maximum_age"; "include_subdomains"; "server_agent_name";
   "header_erase"; "header_insert"; "accept_xff"; "xff_alternative_names";
   "fallback_host"; "fallback_status_codes"; "oneconnect_transformations";
   "request_chunking"; "response_chunking"; "truncated_redirects";
   "excess_client_headers"; "excess_server_headers";
   "oversize_client_headers"; "oversize_server_headers"; "pipeline";
   "unknown_method"; "max_header_count"; "max_header_size"; "max_requests";
   "known_methods"; "poll_interval"; "poll_interval_global"; "sampling_rate";
   "sampling_rate_global"].

(** [set(x)]: the items of a list, the characters of a string. *)
Fixpoint chars (s : string) : list string :=
  match s with
  | EmptyString => []
  | String c r => String c EmptyString :: chars r
  end.

Definition py_set (v : pyval) : result (list string) :=
  match v with
  | VList l => Ok l
  | VStr s => Ok (chars s)
  | _ => Raise TypeError
  end.

Module Difference.

Section Properties.

(** [cmp_simple_list] of [module_utils/network/f5/compare.py] is not
    among the sources; the three properties that call it are taken with
    it as a parameter. *)
Variable cmp_simple_list : pyobj -> pyobj -> result pyobj.

Definition parent (w h : view) : result pyobj :=
  (let? wp := w "parent" in
   let? hp := h "parent" in
   if negb (obj_eq wp hp) then
     Raise (F5ModuleError (VStr "The parent http profile cannot be changed"))
   else Ok None)%res.

Definition dns_resolver (w h : view) : result pyobj :=
  (let? wd := w "dns_resolver" in
   match wd with
   | None => Ok None
   | Some _ =>
       let? hd := h "dns_resolver" in
       let last := if obj_eq hd None then Ok wd else Ok None in
       if obj_eq wd (Some (VStr "")) then
         if obj_eq hd None || obj_eq hd (Some (VStr "none")) then Ok None
         else
           let? hp := h "proxy_type" in
           let? explicit :=
             (if obj_eq hp (Some (VStr "explicit")) then
                let? wp := w "proxy_type" in Ok (obj_eq wp None)
              else Ok false) in
           if explicit then
             Raise (F5ModuleError (VStr
               "DNS resolver cannot be empty or 'none' if an existing profile proxy type is set to explicit."))
           else if negb (obj_eq hd None) then Ok wd
           else last
       else last
   end)%res.

(** [header_erase], [header_insert] and [server_agent_name] share one
    body. *)
Definition none_or_empty (field : string) (w h : view) : result pyobj :=
  (let? wv := w field in
   match wv with
   | None => Ok None
   | Some _ =>
       let? hv := h field in
       if obj_in wv [Some (VStr "none"); Some (VStr "")]
          && obj_in hv [None; Some (VStr "none")]
       then Ok None
       else if negb (obj_eq wv hv) then Ok wv
       else Ok None
   end)%res.

Definition header_erase : view -> view -> result pyobj :=
  none_or_empty "header_erase".
Definition header_insert : view -> view -> result pyobj :=
  none_or_empty "header_insert".
Definition server_agent_name : view -> view -> result pyobj :=
  none_or_empty "server_agent_name".

Definition encrypt_cookies (w h : view) : result pyobj :=
  (let? wv := w "encrypt_cookies" in
   match wv with
   | None => Ok None
   | Some wl =>
       let? hv := h "encrypt_cookies" in
       match hv with
       | None => if negb (truthy wv) then Ok None else Ok wv
       | Some hl =>
           if py_eq hl (VList []) then
             if negb (truthy wv) then Ok None else Ok wv
           else
             let? ws := py_set wl in
             let? hs := py_set hl in
             if negb (set_eq ws hs) then Ok wv else Ok None
       end
   end)%res.

Definition encrypt_cookie_secret (w h : view) : result pyobj :=
  (let? ws := w "encrypt_cookie_secret" in
   let? hs := h "encrypt_cookie_secret" in
   if negb (obj_eq ws hs) then
     let? up := w "update_password" in
     if obj_eq up (Some (VStr "always")) then Ok ws else Ok None
   else Ok None)%res.

Definition simple_list (field : string) (w h : view) : result pyobj :=
  (let? wv := w field in
   let? hv := h field in
   cmp_simple_list wv hv)%res.

Definition xff_alternative_names := simple_list "xff_alternative_names".
Definition fallback_status_codes := simple_list "fallback_status_codes".
Definition known_methods := simple_list "known_methods".

(** The properties the class defines, by name. *)
Definition properties (param : string)
    : option (view -> view -> result pyobj) :=
  if String.eqb param "parent" then Some parent
  else if String.eqb param "dns_resolver" then Some dns_resolver
  else if String.eqb param "header_erase" then Some header_erase
  else if String.eqb param "header_insert" then Some header_insert
  else if String.eqb param "server_agent_name" then Some server_agent_name
  else if String.eqb param "encrypt_cookies" then Some encrypt_cookies
  else if String.eqb param "encrypt_cookie_secret" then Some encrypt_cookie_secret
  else if String.eqb param "xff_alternative_names" then Some xff_alternative_names
  else if String.eqb param "fallback_status_codes" then Some fallback_status_codes
  else if String.eqb param "known_methods" then Some known_methods
  else None.

End Properties.

End Difference.

(** ** ModuleManager *)

Module ModuleManager.

Section Instance.

Variable device : Type.
Variable api : request -> device -> response * device.
Variable ApiParameters : jbody -> view.
Variable api_params : dict -> result dict.
Variable reportable : dict -> dict.
Variable cmp_simple_list : pyobj -> pyobj -> result pyobj.
Variable name partition state : string.
Variable check_mode : bool.

(** [__init__]: nothing read, nothing changed, no call made. *)
Definition init (d : device) (params : view) : manager device :=
  {| dev := d; log := []; want := params; have := ApiParameters no_body;
     changes := [] |}.

Definition _update_changed_options : M device bool :=
  _update_changed_options device updatables
    (Difference.properties cmp_simple_list).

Definition exists_ : M device bool :=
  exists_ device api "http" name partition.

Definition read_current_from_device : M device view :=
  read_current_from_device device api ApiParameters "http" name partition.

Definition create_on_device : M device pyval :=
  create_on_device device api api_params "http" name partition.

Definition update_on_device : M device unit :=
  update_on_device device api api_params "http" name partition.

Definition update : M device bool :=
  update device api ApiParameters api_params "http" updatables
    (Difference.properties cmp_simple_list) name partition check_mode.

Definition exec_module : M device dict :=
  exec_module device api ApiParameters api_params reportable "http"
    updatables returnables (Difference.properties cmp_simple_list)
    (fun w => Ok w) name partition state check_mode.

End Instance.

End ModuleManager.

End Http.

(* ===================================================================== *)
(** * bigip_profile_tcp.py: parameter accessors *)
(* ===================================================================== *)

Module Tcp.

Module ModuleParameters.

Definition idle_timeout (v : pyobj) : result pyobj :=
  match v with
  | None => Ok None
  | Some x =>
      if py_eq x (VStr "indefinite") then Ok (Some (VInt 4294967295))
      else (let? n := int_of x in Ok (Some (VInt n)))%res
  end.

Definition time_wait_recycle (v : pyobj) : pyobj := enabled_of_boolean v.
Definition early_retransmit (v : pyobj) : pyobj := enabled_of_boolean v.
Definition proxy_options (v : pyobj) : pyobj := enabled_of_boolean v.





End ModuleParameters.

Module UsableChanges.

Definition idle_timeout (v : option Z) : result (option Z) :=
  match v with
  | None => Ok None
  | Some n =>
      if in_range 0 4294967295 n then Ok (Some n)
      else Raise (F5ModuleError (VStr
        "Valid 'idle_timeout' must be in range 1 - 4294967295, or 'indefinite'."))
  end.

End UsableChanges.

Module ReportableChanges.

Definition idle_timeout (v : pyobj) : result pyobj :=
  unfold_int "indefinite" 4294967295 v.

Definition time_wait_recycle (v : pyobj) : pyobj := yes_of_enabled v.
Definition early_retransmit (v : pyobj) : pyobj := flatten_boolean v.
Definition proxy_options (v : pyobj) : pyobj := flatten_boolean v.

End ReportableChanges.

(** ** ApiParameters, Difference and ModuleManager *)

Definition api_map : list (string * string) :=
  [ ("idleTimeout", "idle_timeout");
    ("defaultsFrom", "parent");
    ("timeWaitRecycle", "time_wait_recycle");
    ("earlyRetransmit", "early_retransmit");
    ("proxyOptions", "proxy_options");
    ("initCwnd", "initial_congestion_window_size");
    ("initRwnd", "initial_receive_window_size");
    ("synRtoBase", "syn_rto_base") ].

(** The class body is [pass]: every attribute goes through the generic
    lookup. *)
Definition ApiParameters (response : jbody) : view :=
  fun attr => Ok (stored api_map response attr).

Definition updatables : list string :=
  ["idle_timeout"; "parent"; "time_wait_recycle"; "nagle"; "early_retransmit";
   "proxy_options"; "initial_congestion_window_size";
   "initial_receive_window_size"; "syn_rto_base"].

Definition returnables : list string :=
  ["idle_timeout"; "parent"; "time_wait_recycle"; "nagle"; "early_retransmit";
   "proxy_options"; "initial_congestion_window_size";
   "initial_receive_window_size"; "syn_rto_base"].

Module Difference.

(** The class defines no property of its own: every parameter goes through
    the default comparison. *)
Definition properties (param : string)
    : option (view -> view -> result pyobj) := None.

End Difference.

Module ModuleManager.

Section Instance.

Variable device : Type.
Variable api : request -> device -> response * device.
Variable ApiParameters : jbody -> view.
Variable api_params : dict -> result dict.
Variable reportable : dict -> dict.
(** [fq_name] of [module_utils/network/f5/common.py], not among the
    sources. *)
Variable fq_name : string -> string -> string.
Variable name partition state : string.
Variable check_mode : bool.

Definition init (d : device) (params : view) : manager device :=
  {| dev := d; log := []; want := params; have := ApiParameters no_body;
     changes := [] |}.

(** The first statement of [create]: a missing parent becomes the
    [tcp] profile of the partition, which [ModuleParameters.parent] then
    qualifies on every read. *)
Definition create_defaults (w : view) : result view :=
  (let? p := w "parent" in
   match p with
   | None =>
       Ok (fun k => if String.eqb k "parent"
                    then Ok (Some (VStr (fq_name partition (fq_name partition "tcp"))))
                    else w k)
   | Some _ => Ok w
   end)%res.

Definition _update_changed_options : M device bool :=
  _update_changed_options device updatables Difference.properties.

Definition exists_ : M device bool :=
  exists_ device api "tcp" name partition.

Definition read_current_from_device : M device view :=
  read_current_from_device device api ApiParameters "tcp" name partition.

Definition create_on_device : M device pyval :=
  create_on_device device api api_params "tcp" name partition.

Definition update_on_device : M device unit :=
  update_on_device device api api_params "tcp" name partition.

Definition update : M device bool :=
  update device api ApiParameters api_params "tcp" updatables
    Difference.properties name partition check_mode.

Definition exec_module : M device dict :=
  exec_module device api ApiParameters api_params reportable "tcp"
    updatables returnables Difference.properties
    create_defaults name partition state check_mode.

End Instance.

End ModuleManager.

End Tcp.

(* ===================================================================== *)
(** * plugins/action/bigiq.py: the connection adapter *)
(* ===================================================================== *)

Module Bigiq.

(** [needle in s]. *)
Fixpoint contains (needle s : string) : bool :=
  String.prefix needle s
  || match s with
     | EmptyString => false
     | String _ r => contains needle r
     end.

(** The loop condition: ['(config' in to_text(out).strip()]. *)
Definition in_config (out : string) : bool := contains "(config" (strip out).

(** What [run] reads from its surroundings. *)
Record context : Type := {
  pc_connection : string;               (* self._play_context.connection *)
  provider_any : bool;                  (* any(provider.values()) *)
  provider_transport : option string;   (* load_provider(...)['transport'] *)
  persistent_socket : option string;    (* what connection.run() returns *)
  connection_socket : option string     (* self._connection.socket_path *)
}.

(** What [run] does that can be seen from outside, in order. *)
Inductive event : Type :=
| Warn
| OpenShell
| Prompt (out : string)
| Send (command : string).

Inductive outcome (conn : Type) : Type :=
| Failed (msg : string)
| Delegated (ansible_socket : option string) (c : conn).

Arguments Failed {conn} msg.
Arguments Delegated {conn} ansible_socket c.

Definition unable_to_open_shell : string :=
  "Unable to open shell. Please see: https://docs.ansible.com/ansible/network_debug_troubleshooting.html#unable-to-open-shell".

Section Run.

(** The shell behind the socket: reading the prompt and sending a
    command both act on its state. *)
Variable conn : Type.
Variable get_prompt : conn -> string * conn.
Variable send_command : string -> conn -> conn.

(** The [while] loop, entered with the prompt just read.  It runs as
    long as the device stays in configuration mode, so the model counts
    the rounds it may take: [None] when they are used up. *)
Fixpoint leave_config (rounds : nat) (out : string) (c : conn)
    : option (conn * list event) :=
  if in_config out then
    match rounds with
    | O => None
    | S n =>
        let c1 := send_command "exit" c in
        let (out', c2) := get_prompt c1 in
        match leave_config n out' c2 with
        | Some (c3, tr) => Some (c3, Send "exit" :: Prompt out' :: tr)
        | None => None
        end
    end
  else Some (c, []).

(** [transport = provider['transport'] or transport]. *)
Definition transport_of (ctx : context) : string :=
  if String.eqb (pc_connection ctx) "local" then
    match provider_transport ctx with
    | Some t => if String.eqb t "" then "rest" else t
    | None => "rest"
    end
  else "rest".

Definition socket_ok (p : option string) : bool :=
  match p with
  | Some path => negb (String.eqb path "")
  | None => false
  end.

Definition run (rounds : nat) (ctx : context) (c : conn)
    : option (outcome conn * list event) :=
  let transport := transport_of ctx in
  let network_cli := String.eqb (pc_connection ctx) "network_cli" in
  let local_cli := String.eqb (pc_connection ctx) "local"
                   && String.eqb transport "cli" in
  let warn := if network_cli && provider_any ctx then [Warn] else [] in
  if local_cli && negb (socket_ok (persistent_socket ctx)) then
    Some (Failed unable_to_open_shell, [OpenShell])
  else
    let opened := if local_cli then [OpenShell] else [] in
    let socket_path := if local_cli then persistent_socket ctx else None in
    if local_cli || network_cli then
      let (out, c1) := get_prompt c in
      match leave_config rounds out c1 with
      | Some (c2, tr) =>
          Some (Delegated socket_path c2,
                warn ++ opened ++ Prompt out :: tr)%list
      | None => None
      end
    else Some (Delegated socket_path c, warn ++ opened)%list.

End Run.

End Bigiq.

(* ===================================================================== *)
(** * bigip_profile_http.py: the remaining accessors of ModuleParameters *)
(* ===================================================================== *)

Module HttpParams.

(** [s.split(sep)] for a one-character separator. *)
Fixpoint split_on (sep : ascii) (s : string) : list string :=
  match s with
  | EmptyString => [EmptyString]
  | String c r =>
      if Ascii.eqb c sep then EmptyString :: split_on sep r
      else match split_on sep r with
           | h :: t => String c h :: t
           | [] => [String c EmptyString]
           end
  end.

(** A subscript that may fall outside the list. *)
Inductive indexed (A : Type) : Type :=
| Found (a : A)
| IndexError.

Arguments Found {A} a.
Arguments IndexError {A}.

Definition subscript (l : list string) (i : nat) : indexed string :=
  match nth_error l i with
  | Some x => Found x
  | None => IndexError
  end.

(** A number as [0 <= v <= hi] takes it: an integer (or a boolean);
    comparing a string or a list with 0 is a [TypeError]. *)
Definition as_number (v : pyval) : result Z :=
  match v with
  | VInt z => Ok z
  | VBool b => Ok (Z_of_bool b)
  | _ => Raise TypeError
  end.

Section ModuleParameters.

(** [fq_name] of [module_utils/network/f5/common.py] is not among the
    sources; the accessors that call it take it as a parameter, with the
    partition of the task. *)
Variable fq_name : string -> string -> string.
Variable partition : string.

Definition dns_resolver (v : option string) : option string :=
  match v with
  | None => None
  | Some x =>
      if String.eqb x "" || String.eqb x "none" then Some EmptyString
      else Some (fq_name partition x)
  end.

Definition proxy_type (v : option string) (resolver : option string)
    : result (option string) :=
  match v with
  | None => Ok None
  | Some t =>
      if String.eqb t "explicit" then
        match dns_resolver resolver with
        | None =>
            Raise (F5ModuleError (VStr
              "A proxy type cannot be set to explicit without providing DNS resolver."))
        | Some r =>
            if String.eqb r "" then
              Raise (F5ModuleError (VStr
                "A proxy type cannot be set to explicit without providing DNS resolver."))
            else Ok (Some t)
        end
      else Ok (Some t)
  end.

(** The [link] of the dictionary that [dns_resolver_address] builds. *)
Definition dns_resolver_address (resolver_arg : option string)
    : indexed (option string) :=
  match dns_resolver resolver_arg with
  | None => Found None
  | Some resolver =>
      let tmp := split_on "/" resolver in
      match subscript tmp 1, subscript tmp 2 with
      | Found t1, Found t2 =>
          Found (Some ("https://localhost/mgmt/tm/net/dns-resolver/~"
                       ++ t1 ++ "~" ++ t2))
      | _, _ => IndexError
      end
  end.

(** [explicit_proxy]: [None] without a resolver, else the pair
    [dnsResolver], [dnsResolverReference.link]. *)
Definition explicit_proxy (resolver_arg : option string)
    : indexed (option (string * option string)) :=
  match dns_resolver resolver_arg with
  | None => Found None
  | Some resolver =>
      match dns_resolver_address resolver_arg with
      | Found link => Found (Some (resolver, link))
      | IndexError => IndexError
      end
  end.

End ModuleParameters.

Definition encrypt_cookies (v : option (list string)) : option (list string) :=
  match v with
  | None => None
  | Some l =>
      if list_eqb l [EmptyString] || list_eqb l ["none"] then Some []
      else Some l
  end.

(** [poll_interval] and [sampling_rate] share one body. *)
Definition sflow_number (msg : string) (sflow : option Http.sflow_args)
    (get : Http.sflow_args -> pyobj) : result pyobj :=
  match sflow with
  | None => Ok None
  | Some f =>
      match get f with
      | None => Ok None
      | Some v =>
          (let? n := as_number v in
           if in_range 0 4294967295 n then Ok (Some v)
           else Raise (F5ModuleError (VStr msg)))%res
      end
  end.

Definition poll_interval (sflow : option Http.sflow_args) : result pyobj :=
  sflow_number "Valid 'poll_interval' must be in range 0 - 4294967295 seconds."
    sflow Http.arg_poll_interval.

Definition sampling_rate (sflow : option Http.sflow_args) : result pyobj :=
  sflow_number "Valid 'sampling_rate' must be in range 0 - 4294967295 packets."
    sflow Http.arg_sampling_rate.

End HttpParams.

(* ===================================================================== *)
(** * [exists] on a body of any JSON shape *)
(* ===================================================================== *)

(** [resp.json()] gives whatever the body spells: an object, but also
    [None] for null, a boolean, a number, a string or a list.  The managers
    above are written for a device that answers with objects, as the REST
    API does.  [exists_any] is [ModuleManager.exists] (the same text in both
    modules) with the other shapes kept: there ['code' in response] and
    [response['code']] can raise [TypeError], and [exists] catches
    [ValueError] only.  (A number that is a float takes the path of
    [JNumber].) *)
#[warnings="-register-all"] Inductive jvalue : Type :=
| JObject (o : jbody)
| JNull
| JBool (b : bool)
| JNumber (n : Z)
| JString (s : string)
| JArray (items : list jvalue).

Record any_response : Type := {
  any_status : Z;
  any_json : string + jvalue
}.

(** [w == v] for a parsed value [v]. *)
Definition is_word (w : string) (v : jvalue) : bool :=
  match v with
  | JString s => String.eqb w s
  | _ => false
  end.

(** ['code' in response and response['code'] == 404].  [None], a boolean
    and a number are not iterable; a string or a list that has 'code' in it
    cannot be indexed by 'code'. *)
Definition code_404 (response : jvalue) : result bool :=
  match response with
  | JObject o => Ok (code_in o [404])
  | JNull | JBool _ | JNumber _ => Raise TypeError
  | JString s =>
      if Bigiq.contains "code" s then Raise TypeError else Ok false
  | JArray items =>
      if existsb (is_word "code") items then Raise TypeError else Ok false
  end.

Section AnyBody.

Variable device : Type.
Variable api : request -> device -> any_response * device.
Variable kind name partition : string.

Definition exists_any : M device bool :=
  fun self =>
    let rq := {| req_verb := GET; req_uri := Item kind partition name;
                 req_json := None |} in
    let (resp, d) := api rq (dev self) in
    (match any_json resp with
     | inl _ => Ok false
     | inr response =>
         if any_status resp =? 404 then Ok false
         else (let? found := code_404 response in
               if found then Ok false else Ok true)%res
     end,
     {| dev := d; log := log self ++ [rq]; want := want self;
        have := have self; changes := changes self |}).

End AnyBody.

(** A response of the managers above, among the responses of any shape. *)
Definition any_of (resp : response) : any_response :=
  {| any_status := status resp;
     any_json := match json resp with
                 | inl ex => inl ex
                 | inr o => inr (JObject o)
                 end |}.

Definition any_api {device : Type}
    (api : request -> device -> response * device)
    : request -> device -> any_response * device :=
  fun rq d => let (resp, d') := api rq d in (any_of resp, d').

(* ===================================================================== *)
(** * Vocabulary of the statements *)
(* ===================================================================== *)

(** A computation that ends in an [F5ModuleError]. *)
Definition raises_F5 {A} (r : result A) : Prop :=
  exists arg, r = Raise (F5ModuleError arg).



(** The boolean parameters that reach the device as enabled / disabled,
    each with its reporter. *)
Definition enabled_disabled_parameters
    : list ((pyobj -> pyobj) * (pyobj -> pyobj)) :=
  [ (Http.ModuleParameters.accept_xff, Http.ReportableChanges.accept_xff);
    (Http.ModuleParameters.oneconnect_transformations,
     Http.ReportableChanges.oneconnect_transformations);
    (Http.ModuleParameters.insert_xforwarded_for,
     Http.ReportableChanges.insert_xforwarded_for);
    (Http.ModuleParameters.include_subdomains,
     Http.ReportableChanges.include_subdomains);
    (Http.ModuleParameters.hsts_mode, Http.ReportableChanges.hsts_mode);
    ((fun v => Http.ModuleParameters.truncated_redirects
                 (Some (Http.enforcement_of None None None None v))),
     Http.ReportableChanges.truncated_redirects);
    (Tcp.ModuleParameters.time_wait_recycle,
     Tcp.ReportableChanges.time_wait_recycle);
    (Tcp.ModuleParameters.early_retransmit,
     Tcp.ReportableChanges.early_retransmit);
    (Tcp.ModuleParameters.proxy_options, Tcp.ReportableChanges.proxy_options) ].

(** The reporters the source writes out ([None], ['enabled'], else). *)
Definition written_out_reporters : list (pyobj -> pyobj) :=
  [ Http.ReportableChanges.insert_xforwarded_for;
    Http.ReportableChanges.hsts_mode;
    Http.ReportableChanges.include_subdomains;
    Tcp.ReportableChanges.time_wait_recycle ].

(** [known_methods] as the user gives it, expanded to wire form. *)
Definition expand_known (user : list string) : option (list string) :=
  Http.ModuleParameters.known_methods
    (Some (Http.enforcement_of None None None (Some user) None)).

(** Expanding and reporting gives back the user's list, as a set. *)
Definition known_comes_back (user : list string) : bool :=
  match expand_known user with
  | Some wire =>
      match Http.ReportableChanges.known_methods (Some wire) with
      | Some back => set_eq back user
      | None => false
      end
  | None => false
  end.

(** The lists for which it does: not empty; with 'default', none of the
    eleven default methods named beside it; without 'default', not all
    eleven of them. *)
Definition comes_back_when (user : list string) : bool :=
  match user with
  | [] => false
  | _ =>
      if mem "default" user
      then forallb (fun x => negb (mem x Http.defaults)) user
      else negb (subset Http.defaults user)
  end.

(** The prompts read and the commands sent by the adapter's loop, from
    the first prompt to the one the loop stops on. *)
Definition rounds_trace (outs : list string) (last : string)
    : list Bigiq.event :=
  (flat_map (fun o => [Bigiq.Prompt o; Bigiq.Send "exit"]) outs
   ++ [Bigiq.Prompt last])%list.

(** The CLI transport is selected: a local connection whose provider asks
    for [cli]. *)
Definition cli_selected (ctx : Bigiq.context) : Prop :=
  Bigiq.pc_connection ctx = "local" /\ Bigiq.provider_transport ctx = Some "cli".

(** A shell for the examples: its state is how deep it sits in
    configuration mode; each 'exit' goes up one level. *)
Definition nested_prompt (depth : nat) : string * nat :=
  (match depth with
   | O => "admin@bigiq# "
   | S _ => "admin@bigiq(config)# "
   end, depth).

Definition nested_send (command : string) (depth : nat) : nat :=
  if String.eqb command "exit" then Nat.pred depth else depth.

Definition cli_context (socket : option string) : Bigiq.context :=
  {| Bigiq.pc_connection := "local";
     Bigiq.provider_any := true;
     Bigiq.provider_transport := Some "cli";
     Bigiq.persistent_socket := socket;
     Bigiq.connection_socket := None |}.

(** The device answers every request made in state [d] with [resp]. *)
Definition answers {device : Type}
    (api : request -> device -> response * device)
    (d : device) (resp : response) : Prop :=
  forall rq, fst (api rq d) = resp.

(** [self'] is [self] after exactly one call, of verb [v]. *)
Definition one_call {device : Type} (v : verb)
    (self self' : manager device) : Prop :=
  exists rq, req_verb rq = v /\ log self' = (log self ++ [rq])%list.

(** Stand-ins for the examples: a device that gives the same response to
    every request, parameter objects that answer from a dictionary (the
    response under the attribute names of [api_map]), an [api_params] and a
    report that hand the changes on as they are. *)
Definition fixed_device (resp : response)
    : request -> unit -> response * unit :=
  fun _ d => (resp, d).

Definition view_of (values : dict) : view := fun k => Ok (dict_get k values).

Definition plain_params : dict -> result dict := fun c => Ok c.

Definition plain_report : dict -> dict := fun c => c.

Definition no_simple_list : pyobj -> pyobj -> result pyobj :=
  fun w h => Ok (if obj_eq w h then None else w).

Definition reply (code : Z) (members : dict) : response :=
  {| status := code; content := "{...}";
     json := inr {| fields := members; objects := [] |} |}.

Definition unparsable : response :=
  {| status := 200; content := "<html>"; json := inl "No JSON object could be decoded" |}.

(** The rule for [fallback_status_codes] in the words of the module's
    documentation, to set beside the patterns: the numbers that the runs of
    three digits of a code spell, and a list is refused when one of its
    codes spells a number outside 400..417 and a number outside 500..505. *)
Definition digit_value (c : ascii) : Z := Z.of_nat (nat_of_ascii c) - 48.

Fixpoint three_digit_numbers (s : string) : list Z :=
  match s with
  | String a r =>
      match r with
      | String b (String c _) =>
          (if Http.is_digit a && Http.is_digit b && Http.is_digit c
           then [100 * digit_value a + 10 * digit_value b + digit_value c]
           else []) ++ three_digit_numbers r
      | _ => []
      end
  | EmptyString => []
  end%list.

Definition documented_refusal (codes : list string) : bool :=
  existsb (fun code =>
             existsb (fun n => negb (in_range 400 417 n))
                     (three_digit_numbers code)
             && existsb (fun n => negb (in_range 500 505 n))
                        (three_digit_numbers code))
          codes.

(** The names of the properties that the HTTP module's [Difference]
    defines. *)
Definition http_difference_properties : list string :=
  ["parent"; "dns_resolver"; "header_erase"; "header_insert";
   "server_agent_name"; "encrypt_cookies"; "encrypt_cookie_secret";
   "xff_alternative_names"; "fallback_status_codes"; "known_methods"].

(** An HTTP profile as the device reports it, for the examples. *)
Definition http_profile_on_device : jbody :=
  {| fields :=
       [ ("name", VStr "my_profile");
         ("defaultsFrom", VStr "/Common/http");
         ("acceptXff", VStr "disabled");
         ("insertXforwardedFor", VStr "disabled");
         ("oneconnectTransformations", VStr "enabled");
         ("proxyType", VStr "reverse");
         ("redirectRewrite", VStr "none");
         ("requestChunking", VStr "preserve");
         ("responseChunking", VStr "selective") ];
     objects :=
       [ ("enforcement",
          [ ("excessClientHeaders", VStr "reject");
            ("excessServerHeaders", VStr "reject");
            ("knownMethods", VList Http.defaults);
            ("maxHeaderCount", VInt 64);
            ("maxHeaderSize", VInt 32768);
            ("maxRequests", VInt 0);
            ("oversizeClientHeaders", VStr "reject");
            ("oversizeServerHeaders", VStr "reject");
            ("pipeline", VStr "allow");
            ("truncatedRedirects", VStr "disabled");
            ("unknownMethod", VStr "allow") ]);
         ("sflow",
          [ ("pollInterval", VInt 0);
            ("pollIntervalGlobal", VStr "yes");
            ("samplingRate", VInt 0);
            ("samplingRateGlobal", VStr "yes") ]);
         ("hsts",
          [ ("includeSubdomains", VStr "enabled");
            ("maximumAge", VInt 16070400);
            ("mode", VStr "disabled") ]);
         ("explicitProxy", [ ("badRequestMessage", VStr "none") ]) ] |}.

Definition http_device : request -> unit -> response * unit :=
  fixed_device {| status := 200; content := "{...}";
                  json := inr http_profile_on_device |}.

(** A TCP profile as the device reports it. *)
Definition tcp_device : request -> unit -> response * unit :=
  fixed_device (reply 200 [ ("name", VStr "my_profile");
                            ("defaultsFrom", VStr "/Common/tcp");
                            ("idleTimeout", VInt 300);
                            ("nagle", VStr "disabled") ]).

(** A stand-in for [fq_name]: [/partition/name]. *)
Definition slash_name (partition name : string) : string :=
  "/" ++ partition ++ "/" ++ name.

(** What [ModuleParameters] answers for three tasks: one that asks for
    [header_erase: none], one that names another parent and a new
    description, and a TCP task that asks for [nagle: enabled]. *)
Definition want_header_erase_none : view :=
  view_of [ ("header_erase", VStr "none");
            ("parent", VStr "/Common/http");
            ("update_password", VStr "always") ].

Definition want_other_parent : view :=
  view_of [ ("parent", VStr "/Common/other");
            ("description", VStr "new text");
            ("update_password", VStr "always") ].

Definition want_nagle : view := view_of [ ("nagle", VStr "enabled") ].

(** The runs of the examples. *)
Definition http_run (w : view) : result dict * manager unit :=
  Http.ModuleManager.exec_module unit http_device Http.ApiParameters
    plain_params plain_report no_simple_list "my_profile" "Common" "present"
    false (Http.ModuleManager.init unit Http.ApiParameters tt w).

Definition tcp_run (w : view) : result dict * manager unit :=
  Tcp.ModuleManager.exec_module unit tcp_device Tcp.ApiParameters
    plain_params plain_report slash_name "my_profile" "Common" "present"
    false (Tcp.ModuleManager.init unit Tcp.ApiParameters tt w).

(** A string in which the character [c] does not occur. *)
Fixpoint free_of (c : ascii) (s : string) : bool :=
  match s with
  | EmptyString => true
  | String a r => negb (Ascii.eqb a c) && free_of c r
  end.

(** A computation that returns. *)
Definition returns {A} (r : result A) : Prop := exists a, r = Ok a.

(** The shape the two loops of the manager share: ask [f] about each key
    in turn and store every answer that is not [None] under its key. *)
Fixpoint collect (f : string -> result pyobj) (keys : list string)
    (changed : dict) : result dict :=
  match keys with
  | [] => Ok changed
  | k :: rest =>
      match f k with
      | Ok None => collect f rest changed
      | Ok (Some c) => collect f rest (dict_set k c changed)
      | Raise e => Raise e
      end
  end.

(** The three fields that the HTTP module compares with
    [cmp_simple_list]. *)
Definition simple_lists : list string :=
  ["xff_alternative_names"; "fallback_status_codes"; "known_methods"].

(** The verbs of the calls made between two states of the manager. *)
Definition verbs_added {device : Type} (self self' : manager device)
    (vs : list verb) : Prop :=
  exists l, log self' = (log self ++ l)%list /\ map req_verb l = vs.

(* ===================================================================== *)
(** * Facts about the Python layer *)
(* ===================================================================== *)

Lemma list_eqb_refl (l : list string) : list_eqb l l = true.
Proof.
  induction l as [|x r IH]; simpl; [reflexivity|].
  now rewrite String.eqb_refl, IH.
Qed.

Lemma py_eq_refl (v : pyval) : py_eq v v = true.
Proof.
  destruct v as [b|z|s|l]; simpl.
  - now destruct b.
  - apply Z.eqb_refl.
  - apply String.eqb_refl.
  - apply list_eqb_refl.
Qed.

Lemma obj_eq_refl (a : pyobj) : obj_eq a a = true.
Proof. destruct a; simpl; [apply py_eq_refl | reflexivity]. Qed.

Lemma lstrip_no_space (s : string) : no_space s = true -> lstrip s = s.
Proof.
  destruct s as [|c r]; simpl; [reflexivity|].
  intros H. apply andb_prop in H. destruct H as [Hc _].
  destruct (is_space c); [discriminate | reflexivity].
Qed.

Lemma rstrip_no_space (s : string) : no_space s = true -> rstrip s = s.
Proof.
  induction s as [|c r IH]; simpl; [reflexivity|].
  intros H. apply andb_prop in H. destruct H as [Hc Hr].
  rewrite (IH Hr). destruct (is_space c); [discriminate | reflexivity].
Qed.

Lemma strip_no_space (s : string) : no_space s = true -> strip s = s.
Proof.
  intros H. unfold strip. rewrite (lstrip_no_space s H).
  now apply rstrip_no_space.
Qed.

Lemma uint_no_space (d : Decimal.uint) :
  no_space (NilEmpty.string_of_uint d) = true.
Proof. induction d; simpl; auto. Qed.

Lemma py_str_no_space (n : Z) : no_space (py_str n) = true.
Proof.
  unfold py_str. destruct (Z.to_int n) as [d|d]; simpl.
  - destruct d; simpl; try reflexivity; apply uint_no_space.
  - destruct d; simpl; try reflexivity; apply uint_no_space.
Qed.

Lemma int_strip_no_space (s : string) :
  no_int_space s = true -> int_rstrip (int_lstrip s) = s.
Proof.
  intros H.
  assert (Hl : int_lstrip s = s).
  { destruct s as [|c r]; simpl in *; [reflexivity|].
    apply andb_prop in H. destruct H as [Hc _].
    destruct (is_int_space c); [discriminate | reflexivity]. }
  rewrite Hl. clear Hl. induction s as [|c r IH]; simpl in *; [reflexivity|].
  apply andb_prop in H. destruct H as [Hc Hr]. rewrite (IH Hr).
  destruct (is_int_space c); [discriminate | reflexivity].
Qed.

(** A run of digits: no white space, no underscore, no sign. *)
Lemma uint_plain (d : Decimal.uint) :
  no_int_space (NilEmpty.string_of_uint d) = true
  /\ (forall b, d <> Decimal.Nil ->
                ungroup b (NilEmpty.string_of_uint d)
                = Some (NilEmpty.string_of_uint d))
  /\ ungroup true (NilEmpty.string_of_uint d)
     = Some (NilEmpty.string_of_uint d).
Proof.
  induction d as [|d [IH1 [IH2 IH3]]|d [IH1 [IH2 IH3]]|d [IH1 [IH2 IH3]]
                  |d [IH1 [IH2 IH3]]|d [IH1 [IH2 IH3]]|d [IH1 [IH2 IH3]]
                  |d [IH1 [IH2 IH3]]|d [IH1 [IH2 IH3]]|d [IH1 [IH2 IH3]]
                  |d [IH1 [IH2 IH3]]];
    (split; [simpl; auto|]);
    (split; [intros b Hne; simpl; try contradiction; now rewrite IH3
            | simpl; try reflexivity; now rewrite IH3]).
Qed.

Lemma py_digits_uint (d : Decimal.uint) :
  d <> Decimal.Nil -> py_digits (NilEmpty.string_of_uint d) = Some d.
Proof.
  intros Hne. unfold py_digits.
  rewrite (proj1 (proj2 (uint_plain d)) false Hne).
  pose proof (NilZero.usu d Hne) as H. unfold NilZero.string_of_uint in H.
  destruct d; try contradiction; exact H.
Qed.

Lemma uint_head (d : Decimal.uint) :
  d <> Decimal.Nil ->
  exists c r, NilEmpty.string_of_uint d = String c r
              /\ Ascii.eqb c "+" = false /\ Ascii.eqb c "-" = false.
Proof.
  destruct d; try contradiction; intros _; simpl; eexists _, _; repeat split.
Qed.

(** [int(str(n)) == n]. *)
Lemma py_int_py_str (n : Z) : py_int (py_str n) = Some n.
Proof.
  unfold py_int, py_str.
  assert (Hns : no_int_space (NilZero.string_of_int (Z.to_int n)) = true).
  { destruct (Z.to_int n) as [d|d]; simpl; unfold NilZero.string_of_uint;
      destruct d; try reflexivity; apply (proj1 (uint_plain _)). }
  rewrite (int_strip_no_space _ Hns).
  rewrite <- (DecimalZ.of_to n) at 2.
  destruct n as [|p|p]; [reflexivity| |].
  - cbn [Z.to_int NilZero.string_of_int].
    pose proof (DecimalPos.Unsigned.to_uint_nonnil p) as Hne.
    assert (Hs : NilZero.string_of_uint (Pos.to_uint p)
                 = NilEmpty.string_of_uint (Pos.to_uint p))
      by (unfold NilZero.string_of_uint; destruct (Pos.to_uint p);
          [contradiction | reflexivity ..]).
    rewrite Hs. destruct (uint_head _ Hne) as (c & r & E & Hp & Hm).
    rewrite E, Hp, Hm, <- E. now rewrite (py_digits_uint _ Hne).
  - cbn [Z.to_int NilZero.string_of_int].
    pose proof (DecimalPos.Unsigned.to_uint_nonnil p) as Hne.
    assert (Hs : NilZero.string_of_uint (Pos.to_uint p)
                 = NilEmpty.string_of_uint (Pos.to_uint p))
      by (unfold NilZero.string_of_uint; destruct (Pos.to_uint p);
          [contradiction | reflexivity ..]).
    rewrite Hs. cbn [Ascii.eqb Bool.eqb].
    now rewrite (py_digits_uint _ Hne).
Qed.

(** What [int] reads: digits that single underscores may group, one sign,
    the white space of the C locale around them; the separators 28..31,
    which [str.strip] removes, are not skipped. *)
Lemma py_int_reads :
  py_int "1_000" = Some 1000
  /\ py_int " +12 " = Some 12
  /\ py_int "-007" = Some (-7)
  /\ py_int (String (ascii_of_nat 28) "100") = None
  /\ strip (String (ascii_of_nat 28) "100") = "100"
  /\ py_int "1__0" = None
  /\ py_int "_1" = None
  /\ py_int "1_" = None
  /\ py_int "- 1" = None
  /\ py_int "" = None.
Proof. repeat split; reflexivity. Qed.

Lemma py_int_sentinel (s : string) (n : Z) :
  py_int s = Some n -> s <> "default" /\ s <> "indefinite".
Proof.
  intros H; split; intros ->; vm_compute in H; discriminate.
Qed.

Lemma py_str_not_sentinel (n : Z) :
  py_str n <> "default" /\ py_str n <> "indefinite".
Proof. apply (py_int_sentinel _ n), py_int_py_str. Qed.

Lemma in_range_spec (lo hi n : Z) :
  in_range lo hi n = true <-> lo <= n <= hi.
Proof. unfold in_range. rewrite andb_true_iff, !Z.leb_le. tauto. Qed.

(* ===================================================================== *)
(** * Folding and range checks *)
(* ===================================================================== *)

Lemma folded_range_sentinel sentinel dflt lo hi msg :
  folded_range sentinel dflt lo hi msg (Some (VStr sentinel))
  = Ok (Some (VInt dflt)).
Proof. unfold folded_range; simpl. now rewrite String.eqb_refl. Qed.

Lemma folded_range_number sentinel dflt lo hi msg s n :
  py_int s = Some n -> s <> sentinel ->
  folded_range sentinel dflt lo hi msg (Some (VStr s))
  = if in_range lo hi n then Ok (Some (VInt n))
    else Raise (F5ModuleError (VStr msg)).
Proof.
  intros Hs Hne. unfold folded_range; simpl.
  apply String.eqb_neq in Hne. rewrite Hne. now rewrite Hs.
Qed.

Lemma unfold_str_number sentinel dflt n :
  unfold_str sentinel dflt (Some (VInt n))
  = Some (VStr (if n =? dflt then sentinel else py_str n)).
Proof. unfold unfold_str; simpl. now destruct (n =? dflt). Qed.

Lemma unfold_int_number sentinel dflt n :
  unfold_int sentinel dflt (Some (VInt n))
  = Ok (Some (if n =? dflt then VStr sentinel else VInt n)).
Proof. unfold unfold_int; simpl. now destruct (n =? dflt). Qed.





(* ===================================================================== *)
(** * Default-value folding, there and back *)
(* ===================================================================== *)







(* ===================================================================== *)
(** * Boolean parameters *)
(* ===================================================================== *)

(** C6, as stated, fails: [sflow.poll_interval_global] is a boolean module
    parameter, and a true value goes to the device as 'yes', not as
    'enabled'. *)
Lemma poll_interval_global_is_not_enabled :
  Http.ModuleParameters.poll_interval_global
    (Some (Http.sflow_of (Some (VBool true)) None))
  = Some (VStr "yes")
  /\ Http.ModuleParameters.poll_interval_global
       (Some (Http.sflow_of (Some (VBool true)) None))
     <> Some (VStr "enabled").
Proof. split; [reflexivity | discriminate]. Qed.

Lemma enabled_of_boolean_spec (v : pyval) :
  enabled_of_boolean (Some v)
  = Some (VStr (if affirmative v then "enabled" else "disabled")).
Proof.
  unfold enabled_of_boolean, flatten_boolean.
  now destruct (affirmative v).
Qed.

Lemma yes_of_enabled_spec (w : pyval) :
  yes_of_enabled (Some w)
  = Some (VStr (if py_eq w (VStr "enabled") then "yes" else "no")).
Proof. unfold yes_of_enabled. now destruct (py_eq w (VStr "enabled")). Qed.

Lemma report_after_translate (v : pyval) :
  yes_of_enabled (enabled_of_boolean (Some v))
  = Some (VStr (if affirmative v then "yes" else "no"))
  /\ flatten_boolean (enabled_of_boolean (Some v))
     = Some (VStr (if affirmative v then "yes" else "no")).
Proof.
  rewrite enabled_of_boolean_spec.
  destruct (affirmative v); split; reflexivity.
Qed.

(** C6, amended.  For every boolean module parameter that reaches the
    device as enabled / disabled (all but [sflow]'s two global switches):
    [None] stays [None], a true value becomes 'enabled' and a false one
    'disabled'; the reporter keeps [None], turns 'enabled' into 'yes' and
    'disabled' into 'no'; translating and then reporting gives 'yes'
    exactly for a true value.  The four reporters that the source writes
    out turn every wire value other than 'enabled' into 'no'. *)
Theorem boolean_translation :
  Forall (fun tr : (pyobj -> pyobj) * (pyobj -> pyobj) =>
            let (translate, report) := tr in
            translate None = None
            /\ (forall v, translate (Some v)
                          = Some (VStr (if affirmative v then "enabled"
                                        else "disabled")))
            /\ report None = None
            /\ report (Some (VStr "enabled")) = Some (VStr "yes")
            /\ report (Some (VStr "disabled")) = Some (VStr "no")
            /\ (forall v, report (translate (Some v))
                          = Some (VStr (if affirmative v then "yes" else "no"))))
         enabled_disabled_parameters
  /\ Forall (fun report : pyobj -> pyobj =>
               forall w, report (Some w)
                         = Some (VStr (if py_eq w (VStr "enabled") then "yes"
                                       else "no")))
            written_out_reporters
  /\ affirmative (VBool true) = true
  /\ affirmative (VBool false) = false.
Proof.
  split; [|split; [|split; reflexivity]].
  - unfold enabled_disabled_parameters.
    repeat (apply Forall_cons;
            [ repeat split; try reflexivity;
              intros v;
              solve [ apply enabled_of_boolean_spec
                    | apply (proj1 (report_after_translate v))
                    | apply (proj2 (report_after_translate v)) ] | ]).
    apply Forall_nil.
  - unfold written_out_reporters.
    repeat (apply Forall_cons; [intros w; apply yes_of_enabled_spec|]).
    apply Forall_nil.
Qed.

(* ===================================================================== *)
(** * Known methods *)
(* ===================================================================== *)

Lemma mem_In (x : string) (l : list string) : mem x l = true <-> In x l.
Proof.
  unfold mem. rewrite existsb_exists. split.
  - intros (y & Hy & E). apply String.eqb_eq in E. now subst.
  - intros H. exists x. split; [assumption | apply String.eqb_refl].
Qed.

Lemma subset_spec (a b : list string) :
  subset a b = true <-> (forall x, In x a -> In x b).
Proof.
  unfold subset. rewrite forallb_forall. split; intros H x Hx.
  - now apply mem_In, H.
  - now apply mem_In, H.
Qed.

Lemma set_eq_spec (a b : list string) :
  set_eq a b = true <-> (forall x, In x a <-> In x b).
Proof.
  unfold set_eq. rewrite andb_true_iff, !subset_spec. firstorder.
Qed.

Lemma default_not_a_method : ~ In "default" Http.defaults.
Proof. intros H. apply mem_In in H. vm_compute in H. discriminate. Qed.

Lemma expand_with_default (u : list string) :
  mem "default" u = true ->
  expand_known u
  = Some (filter (fun m => negb (String.eqb m "default")) u ++ Http.defaults)%list.
Proof.
  unfold expand_known, Http.ModuleParameters.known_methods; simpl.
  destruct u as [|k0 [|k1 r]]; intros H.
  - discriminate.
  - assert (H' : String.eqb k0 "default" = true).
    { unfold mem in H. simpl in H. rewrite orb_false_r in H.
      now rewrite String.eqb_sym. }
    rewrite H'. apply String.eqb_eq in H'. subst k0. reflexivity.
  - now rewrite H.
Qed.

Lemma expand_without_default (u : list string) :
  mem "default" u = false -> u <> [""] -> expand_known u = Some u.
Proof.
  unfold expand_known, Http.ModuleParameters.known_methods; simpl.
  destruct u as [|k0 [|k1 r]]; intros H Hne.
  - reflexivity.
  - assert (H' : String.eqb k0 "default" = false).
    { unfold mem in H. simpl in H. rewrite orb_false_r in H.
      now rewrite String.eqb_sym. }
    rewrite H', H.
    destruct (String.eqb_spec k0 ""); [subst; contradiction | reflexivity].
  - now rewrite H.
Qed.

Lemma report_nonempty (k : list string) :
  k <> [] ->
  Http.ReportableChanges.known_methods (Some k)
  = if set_eq k Http.defaults then Some ["default"]
    else if subset Http.defaults k
         then Some (filter (fun item => negb (mem item Http.defaults)) k
                    ++ ["default"])%list
         else Some k.
Proof. destruct k; [contradiction | reflexivity]. Qed.

Lemma In_not_default (x : string) (u : list string) :
  In x (filter (fun m => negb (String.eqb m "default")) u)
  <-> In x u /\ x <> "default".
Proof.
  rewrite filter_In, negb_true_iff, String.eqb_neq. tauto.
Qed.

Lemma In_not_method (x : string) (k : list string) :
  In x (filter (fun item => negb (mem item Http.defaults)) k)
  <-> In x k /\ ~ In x Http.defaults.
Proof.
  rewrite filter_In, negb_true_iff, <- not_true_iff_false, mem_In. tauto.
Qed.

Lemma set_eq_refl (u : list string) : set_eq u u = true.
Proof. apply set_eq_spec. tauto. Qed.

Lemma set_eq_default_absent (k u : list string) :
  mem "default" u = false -> In "default" k -> set_eq k u = false.
Proof.
  intros Hu Hk. apply not_true_iff_false. intros E.
  rewrite set_eq_spec in E. apply E, mem_In in Hk. congruence.
Qed.

Lemma comes_back_with_default (u : list string) :
  mem "default" u = true -> known_comes_back u = comes_back_when u.
Proof.
  intros Hd. pose proof (proj1 (mem_In _ _) Hd) as Hin.
  pose proof default_not_a_method as HnD.
  apply Bool.eq_true_iff_eq.
  assert (Hc : comes_back_when u = true
               <-> forall x, In x u -> ~ In x Http.defaults).
  { unfold comes_back_when. destruct u as [|a r]; [contradiction|].
    rewrite Hd, forallb_forall.
    split; intros H x Hx; specialize (H x Hx).
    - now rewrite negb_true_iff, <- not_true_iff_false, mem_In in H.
    - now rewrite negb_true_iff, <- not_true_iff_false, mem_In. }
  rewrite Hc. unfold known_comes_back.
  rewrite (expand_with_default u Hd).
  set (nd := filter (fun m => negb (String.eqb m "default")) u).
  assert (Hnd : forall x, In x nd <-> In x u /\ x <> "default")
    by (intros x; apply In_not_default).
  rewrite report_nonempty
    by (intros E; apply app_eq_nil in E; destruct E as [_ E]; discriminate).
  destruct (set_eq (nd ++ Http.defaults) Http.defaults) eqn:E1.
  - rewrite set_eq_spec in E1. rewrite set_eq_spec. split.
    + intros H x Hx HD. apply H in Hx. destruct Hx as [<-|[]]. contradiction.
    + intros H x. split.
      * intros [<-|[]]. assumption.
      * intros Hx. destruct (string_dec x "default") as [->|Hne];
          [now left|].
        exfalso. apply (H x Hx). apply E1, in_or_app. left.
        apply Hnd. now split.
  - assert (E2 : subset Http.defaults (nd ++ Http.defaults) = true).
    { apply subset_spec. intros x Hx. apply in_or_app. now right. }
    rewrite E2, set_eq_spec. split.
    + intros H x Hx HD. apply H in Hx. apply in_app_or in Hx.
      destruct Hx as [Hx|[<-|[]]].
      * apply In_not_method in Hx. tauto.
      * contradiction.
    + intros H x. split.
      * intros Hx. apply in_app_or in Hx. destruct Hx as [Hx|[<-|[]]].
        -- apply In_not_method in Hx. destruct Hx as [Hx HxD].
           apply in_app_or in Hx. destruct Hx as [Hx|Hx]; [|contradiction].
           now apply Hnd in Hx.
        -- assumption.
      * intros Hx. apply in_or_app.
        destruct (string_dec x "default") as [->|Hne]; [right; now left|].
        left. apply In_not_method. split; [|now apply H].
        apply in_or_app. left. apply Hnd. now split.
Qed.

Lemma comes_back_without_default (u : list string) :
  mem "default" u = false -> known_comes_back u = comes_back_when u.
Proof.
  intros Hd.
  destruct (list_eq_dec string_dec u [""]) as [->|Hne]; [reflexivity|].
  unfold known_comes_back. rewrite (expand_without_default u Hd Hne).
  destruct u as [|a r]; [reflexivity|].
  rewrite report_nonempty by discriminate.
  unfold comes_back_when. rewrite Hd.
  destruct (set_eq (a :: r) Http.defaults) eqn:E1.
  - rewrite (set_eq_default_absent _ _ Hd) by now left.
    unfold set_eq in E1. apply andb_prop in E1. destruct E1 as [_ E1].
    now rewrite E1.
  - destruct (subset Http.defaults (a :: r)) eqn:E2.
    + rewrite (set_eq_default_absent _ _ Hd); [reflexivity|].
      apply in_or_app. right. now left.
    + apply set_eq_refl.
Qed.

(** C4, as stated, fails: a user list that asks for the defaults and also
    names one of them comes back as ['default'] alone. *)
Lemma known_methods_round_trip_fails :
  expand_known ["GET"; "default"]
  = Some ("GET" :: Http.defaults)
  /\ Http.ReportableChanges.known_methods (Some ("GET" :: Http.defaults))
     = Some ["default"]
  /\ set_eq ["default"] ["GET"; "default"] = false.
Proof. repeat split. Qed.

(** C4, amended.  [ModuleParameters.known_methods] expands the user's list
    as the claim says (['default'] to the eleven defaults, [''] to the
    empty list, a list with 'default' to its other entries followed by the
    eleven defaults, any other list unchanged), and reporting the expanded
    list gives the user's list back as a set exactly when that list is not
    empty and either contains 'default' and names none of the eleven
    defaults, or does not contain 'default' and lacks one of the eleven. *)
Theorem known_methods_round_trip (user : list string) :
  expand_known ["default"]
  = Some ["CONNECT"; "DELETE"; "GET"; "HEAD"; "LOCK"; "OPTIONS"; "POST";
          "PROPFIND"; "PUT"; "TRACE"; "UNLOCK"]
  /\ expand_known [""] = Some []
  /\ (mem "default" user = true ->
      expand_known user
      = Some (filter (fun m => negb (String.eqb m "default")) user
              ++ Http.defaults)%list)
  /\ (mem "default" user = false -> user <> [""] ->
      expand_known user = Some user)
  /\ known_comes_back user = comes_back_when user.
Proof.
  split; [reflexivity|]. split; [reflexivity|].
  split; [apply expand_with_default|].
  split; [apply expand_without_default|].
  destruct (mem "default" user) eqn:Hd.
  - now apply comes_back_with_default.
  - now apply comes_back_without_default.
Qed.

Lemma known_methods_round_trip_witness :
  expand_known ["FOO"; "default"] = Some ("FOO" :: Http.defaults)
  /\ expand_known ["GET"; "POST"] = Some ["GET"; "POST"]
  /\ known_comes_back ["FOO"; "default"] = true.
Proof.
  split; [apply (known_methods_round_trip ["FOO"; "default"]); reflexivity|].
  split; [apply (known_methods_round_trip ["GET"; "POST"]);
          [reflexivity | discriminate]|].
  now rewrite (proj2 (proj2 (proj2 (proj2
    (known_methods_round_trip ["FOO"; "default"]))))).
Defined.

(* ===================================================================== *)
(** * Fallback status codes *)
(* ===================================================================== *)

Lemma check_codes_spec (codes : list string) :
  Http.ModuleParameters.check_codes codes
  = if existsb (fun code => Http.re_search Http.p1_at code
                            && Http.re_search Http.p2_at code) codes
    then Raise (F5ModuleError (VStr Http.ModuleParameters.invalid_code))
    else Ok tt.
Proof.
  induction codes as [|code rest IH]; simpl; [reflexivity|].
  destruct (Http.re_search Http.p1_at code);
    destruct (Http.re_search Http.p2_at code); simpl; auto.
Qed.

(** C10.  What the accessor does on the inputs the claim names and on the
    codes 408 and 409: [None] stays, '400', '400-417', '500' and '500-505'
    are returned, the mixed range '400-505' raises, and so do '408' and
    '409', which lie inside 400-417: the pattern [[4][0-1][0-7]] leaves
    them out, where the documented rule refuses neither.  In general the
    accessor raises exactly when some code is matched by both patterns. *)
Theorem fallback_status_codes_408 :
  let invalid := Raise (F5ModuleError
    (VStr "Invalid HTTP error code or error code range specified.")) in
  Http.ModuleParameters.fallback_status_codes None = Ok None
  /\ Http.ModuleParameters.fallback_status_codes
       (Some ["400"; "400-417"; "500"; "500-505"])
     = Ok (Some ["400"; "400-417"; "500"; "500-505"])
  /\ Http.ModuleParameters.fallback_status_codes (Some ["400-505"]) = invalid
  /\ Http.ModuleParameters.fallback_status_codes (Some ["408"]) = invalid
  /\ Http.ModuleParameters.fallback_status_codes (Some ["409"]) = invalid
  /\ documented_refusal ["400"; "400-417"; "500"; "500-505"] = false
  /\ documented_refusal ["400-505"] = true
  /\ documented_refusal ["408"] = false
  /\ documented_refusal ["409"] = false
  /\ forall codes,
       Http.ModuleParameters.fallback_status_codes (Some codes)
       = if existsb (fun code => Http.re_search Http.p1_at code
                                 && Http.re_search Http.p2_at code) codes
         then invalid else Ok (Some codes).
Proof.
  intros invalid. repeat split.
  intros codes. unfold Http.ModuleParameters.fallback_status_codes.
  rewrite check_codes_spec.
  now destruct (existsb _ codes).
Qed.

(* ===================================================================== *)
(** * The connection adapter *)
(* ===================================================================== *)

Section RunFacts.

Variable conn : Type.
Variable get_prompt : conn -> string * conn.
Variable send_command : string -> conn -> conn.

Local Abbreviation leave := (Bigiq.leave_config conn get_prompt send_command).

Lemma leave_config_trace (rounds : nat) :
  forall out c c' tr,
    leave rounds out c = Some (c', tr) ->
    exists outs last,
      Bigiq.Prompt out :: tr = rounds_trace outs last
      /\ Forall (fun o => Bigiq.in_config o = true) outs
      /\ Bigiq.in_config last = false.
Proof.
  induction rounds as [|n IH]; intros out c c' tr; simpl;
    destruct (Bigiq.in_config out) eqn:E; try discriminate.
  - intros [= <- <-]. exists [], out. now repeat split.
  - destruct (get_prompt (send_command "exit" c)) as [out' c2] eqn:G.
    destruct (leave n out' c2) as [[c3 tr']|] eqn:L; [|discriminate].
    intros [= <- <-].
    destruct (IH _ _ _ _ L) as (outs & last & Htr & Hall & Hlast).
    exists (out :: outs), last. repeat split; auto.
    unfold rounds_trace in *. simpl. now rewrite <- Htr.
  - intros [= <- <-]. exists [], out. now repeat split.
Qed.

(** More rounds never lose a result. *)
Lemma leave_config_more (rounds : nat) :
  forall out c r extra,
    leave rounds out c = Some r -> leave (rounds + extra) out c = Some r.
Proof.
  induction rounds as [|n IH]; intros out c r extra; simpl.
  - destruct (Bigiq.in_config out) eqn:E; [discriminate|].
    intros H. destruct extra; simpl; now rewrite E.
  - destruct (Bigiq.in_config out) eqn:E; [|trivial].
    destruct (get_prompt (send_command "exit" c)) as [out' c2].
    destruct (leave n out' c2) as [[c3 tr']|] eqn:L; [|discriminate].
    now rewrite (IH _ _ _ extra L).
Qed.

(** C8.  With the CLI transport selected, [run] fails with the
    'Unable to open shell' message when no socket path is obtained; with
    a socket path, whenever it hands the task on it has read the prompt,
    answered every prompt that contained '(config' with 'exit', and the
    last prompt it read does not contain '(config'.  A run that hands
    the task on within some number of rounds does so within any larger
    number. *)
Theorem cli_starts_outside_config (rounds : nat) (ctx : Bigiq.context)
    (c : conn) (Hcli : cli_selected ctx) :
  String.prefix "Unable to open shell" Bigiq.unable_to_open_shell = true
  /\ (Bigiq.socket_ok (Bigiq.persistent_socket ctx) = false ->
      Bigiq.run conn get_prompt send_command rounds ctx c
      = Some (Bigiq.Failed Bigiq.unable_to_open_shell, [Bigiq.OpenShell]))
  /\ (Bigiq.socket_ok (Bigiq.persistent_socket ctx) = true ->
      forall res tr,
        Bigiq.run conn get_prompt send_command rounds ctx c = Some (res, tr) ->
        (exists c', res = Bigiq.Delegated (Bigiq.persistent_socket ctx) c')
        /\ exists outs last,
             tr = Bigiq.OpenShell :: rounds_trace outs last
             /\ Forall (fun o => Bigiq.in_config o = true) outs
             /\ Bigiq.in_config last = false)
  /\ (forall r extra,
        Bigiq.run conn get_prompt send_command rounds ctx c = Some r ->
        Bigiq.run conn get_prompt send_command (rounds + extra) ctx c
        = Some r).
Proof.
  destruct Hcli as [Hl Ht].
  split; [reflexivity|].
  assert (Hlocal : (String.eqb (Bigiq.pc_connection ctx) "local"
                    && String.eqb (Bigiq.transport_of ctx) "cli")%bool = true).
  { unfold Bigiq.transport_of. rewrite Hl, Ht. reflexivity. }
  assert (Hnet : String.eqb (Bigiq.pc_connection ctx) "network_cli" = false)
    by (rewrite Hl; reflexivity).
  unfold Bigiq.run. rewrite Hlocal, Hnet. cbn [andb orb app].
  split; [|split].
  - intros Hs. now rewrite Hs.
  - intros Hs res tr. rewrite Hs. cbn [negb].
    destruct (get_prompt c) as [out c1].
    destruct (leave rounds out c1) as [[c2 tr']|] eqn:L; [|discriminate].
    intros [= <- <-]. split; [now exists c2|].
    destruct (leave_config_trace _ _ _ _ _ L) as (outs & last & Htr & Hall & Hlast).
    exists outs, last. repeat split; auto. now rewrite <- Htr.
  - intros r extra.
    destruct (negb (Bigiq.socket_ok (Bigiq.persistent_socket ctx)));
      [trivial|].
    destruct (get_prompt c) as [out c1].
    destruct (leave rounds out c1) as [[c2 tr']|] eqn:L; [|discriminate].
    now rewrite (leave_config_more _ _ _ _ extra L).
Qed.

End RunFacts.

Lemma cli_starts_outside_config_witness :
  Bigiq.run nat nested_prompt nested_send 5 (cli_context None) 2%nat
  = Some (Bigiq.Failed Bigiq.unable_to_open_shell, [Bigiq.OpenShell])
  /\ Bigiq.run nat nested_prompt nested_send 2 (cli_context (Some "/tmp/sock")) 2%nat
     = Some (Bigiq.Delegated (Some "/tmp/sock") 0%nat,
             Bigiq.OpenShell
             :: rounds_trace ["admin@bigiq(config)# "; "admin@bigiq(config)# "]
                  "admin@bigiq# ")
  /\ Bigiq.run nat nested_prompt nested_send (2 + 3)
       (cli_context (Some "/tmp/sock")) 2%nat
     = Some (Bigiq.Delegated (Some "/tmp/sock") 0%nat,
             Bigiq.OpenShell
             :: rounds_trace ["admin@bigiq(config)# "; "admin@bigiq(config)# "]
                  "admin@bigiq# ").
Proof.
  split; [|split].
  - apply (cli_starts_outside_config nat nested_prompt nested_send 5
             (cli_context None) 2%nat (conj eq_refl eq_refl)).
    reflexivity.
  - reflexivity.
  - apply (cli_starts_outside_config nat nested_prompt nested_send 2
             (cli_context (Some "/tmp/sock")) 2%nat (conj eq_refl eq_refl)).
    reflexivity.
Defined.

(* ===================================================================== *)
(** * The REST calls of the manager *)
(* ===================================================================== *)

Section CallFacts.

Variable device : Type.
Variable api : request -> device -> response * device.
Variable ApiParameters : jbody -> view.
Variable api_params : dict -> result dict.
Variable kind name partition : string.

Lemma call_spec (v : verb) (u : uri) (body : option dict)
    (self : manager device) (resp : response) :
  answers api (dev self) resp ->
  exists self',
    call device api v u body self = (Ok resp, self')
    /\ one_call v self self'
    /\ changes self' = changes self
    /\ want self' = want self /\ have self' = have self.
Proof.
  intros H. unfold call.
  specialize (H {| req_verb := v; req_uri := u; req_json := body |}).
  destruct (api _ (dev self)) as [r d]. simpl in H. subst r.
  eexists. split; [reflexivity|]. repeat split.
  eexists. split; [|reflexivity]. reflexivity.
Qed.



(** C3, amended.  When the body of the response cannot be parsed,
    [read_current_from_device], [create_on_device] and [update_on_device]
    raise [F5ModuleError] with the parse error after that single request;
    [exists] does not raise: it answers [False]. *)
Theorem malformed_json (self : manager device) (resp : response)
    (ex : string) (params : dict)
    (Hresp : answers api (dev self) resp)
    (Hjson : json resp = inl ex) :
  (exists self',
     read_current_from_device device api ApiParameters kind name partition self
     = (Raise (F5ModuleError (VStr ex)), self')
     /\ one_call GET self self')
  /\ (api_params (changes self) = Ok params ->
      (exists self',
         create_on_device device api api_params kind name partition self
         = (Raise (F5ModuleError (VStr ex)), self')
         /\ one_call POST self self')
      /\ (exists self',
            update_on_device device api api_params kind name partition self
            = (Raise (F5ModuleError (VStr ex)), self')
            /\ one_call PATCH self self'))
  /\ (exists self',
        exists_ device api kind name partition self = (Ok false, self')
        /\ one_call GET self self').
Proof.
  split; [|split].
  - unfold read_current_from_device, bind.
    destruct (call_spec GET (Item kind partition name) None self resp Hresp)
      as (self' & Hc & Hone & _).
    rewrite Hc, Hjson. now exists self'.
  - intros Hparams. split.
    + unfold create_on_device, bind, get_changes, lift. rewrite Hparams.
      destruct (call_spec POST (Collection kind)
                  (Some (dict_set "partition" (VStr partition)
                           (dict_set "name" (VStr name) params)))
                  self resp Hresp) as (self' & Hc & Hone & _).
      rewrite Hc, Hjson. now exists self'.
    + unfold update_on_device, bind, get_changes, lift. rewrite Hparams.
      destruct (call_spec PATCH (Item kind partition name) (Some params)
                  self resp Hresp) as (self' & Hc & Hone & _).
      rewrite Hc, Hjson. now exists self'.
  - unfold exists_, bind.
    destruct (call_spec GET (Item kind partition name) None self resp Hresp)
      as (self' & Hc & Hone & _).
    rewrite Hc, Hjson. now exists self'.
Qed.

End CallFacts.



(** C3, as stated, fails: [exists] answers [False] to a body that cannot
    be parsed; it does not raise. *)
Lemma exists_swallows_malformed_json :
  fst (Http.ModuleManager.exists_ unit (fixed_device unparsable)
         "my_profile" "Common"
         (Http.ModuleManager.init unit Http.ApiParameters tt (view_of [])))
  = Ok false.
Proof. reflexivity. Qed.

Lemma malformed_json_witness :
  let self := Tcp.ModuleManager.init unit Tcp.ApiParameters tt (view_of []) in
  fst (Tcp.ModuleManager.read_current_from_device unit
         (fixed_device unparsable) Tcp.ApiParameters "my_profile" "Common" self)
  = Raise (F5ModuleError (VStr "No JSON object could be decoded"))
  /\ fst (Tcp.ModuleManager.exists_ unit (fixed_device unparsable)
            "my_profile" "Common" self)
     = Ok false.
Proof.
  intros self.
  destruct (malformed_json unit (fixed_device unparsable) Tcp.ApiParameters plain_params
              "tcp" "my_profile" "Common" self unparsable
              "No JSON object could be decoded" []
              (fun _ => eq_refl) eq_refl) as (Hr & _ & He).
  destruct Hr as (s1 & E1 & _). destruct He as (s2 & E2 & _).
  unfold Tcp.ModuleManager.read_current_from_device, Tcp.ModuleManager.exists_.
  rewrite E1, E2. split; reflexivity.
Defined.

(* ===================================================================== *)
(** * Dictionaries *)
(* ===================================================================== *)

Lemma dict_set_not_empty (k : string) (v : pyval) (d : dict) :
  dict_set k v d <> [].
Proof.
  destruct d as [|[k' v'] r]; simpl; [discriminate|].
  destruct (String.eqb k k'); discriminate.
Qed.

Lemma dict_get_set (k : string) (v : pyval) (d : dict) :
  dict_get k (dict_set k v d) = Some v.
Proof.
  induction d as [|[k' v'] r IH]; simpl.
  - now rewrite String.eqb_refl.
  - destruct (String.eqb k k') eqn:E; simpl; rewrite E; auto.
Qed.

Lemma dict_get_pop_other (k k' : string) (d : dict) :
  k <> k' -> dict_get k (dict_pop k' d) = dict_get k d.
Proof.
  intros Hne. induction d as [|[k0 v0] r IH]; simpl; [reflexivity|].
  destruct (String.eqb k' k0) eqn:E.
  - apply String.eqb_eq in E. subst k0.
    apply String.eqb_neq in Hne. now rewrite Hne.
  - simpl. now rewrite IH.
Qed.

Lemma dict_keys_set (k : string) (v : pyval) (d : dict) (x : string) :
  In x (dict_keys (dict_set k v d)) -> x = k \/ In x (dict_keys d).
Proof.
  unfold dict_keys. induction d as [|[k' v'] r IH]; simpl.
  - intros [<-|[]]. now left.
  - destruct (String.eqb k k') eqn:E; simpl.
    + tauto.
    + intros [<-|H]; [now right; left|].
      destruct (IH H); [now left | now right; right].
Qed.

(** The result of [exec_module] carries its flag under ['changed']. *)
Lemma changed_key (b : bool) (d : dict) :
  dict_get "changed" (dict_pop "__warnings" (dict_set "changed" (VBool b) d))
  = Some (VBool b).
Proof.
  rewrite dict_get_pop_other by discriminate. apply dict_get_set.
Qed.

(* ===================================================================== *)
(** * The update path *)
(* ===================================================================== *)

Section UpdateFacts.

Variable device : Type.
Variable api : request -> device -> response * device.
Variable ApiParameters : jbody -> view.
Variable api_params : dict -> result dict.
Variable reportable : dict -> dict.
Variable kind : string.
Variable updatables returnables : list string.
Variable properties : string -> option (view -> view -> result pyobj).
Variable create_defaults : view -> result view.
Variable name partition : string.
Variable check_mode : bool.

Local Abbreviation compare := (Difference_compare properties).
Local Abbreviation loop := (update_loop properties).

(** The default comparison: no change exactly when the desired value is
    [None] or equals the device's. *)
Lemma default_rule (w h : view) (k : string) (wv hv : pyobj) :
  properties k = None -> w k = Ok wv -> h k = Ok hv ->
  compare w h k = Ok (if obj_eq wv hv then None else wv).
Proof.
  intros Hp Hw Hh. unfold Difference_compare, Difference_default.
  rewrite Hp, Hw. simpl. rewrite Hh.
  now destruct (obj_eq wv hv).
Qed.

Lemma loop_unchanged (w h : view) (keys : list string) (changed : dict) :
  (forall k, In k keys -> compare w h k = Ok None) ->
  loop w h keys changed = Ok changed.
Proof.
  revert changed. induction keys as [|k rest IH]; intros changed H; simpl.
  - reflexivity.
  - rewrite (H k) by now left. simpl. apply IH.
    intros k' Hk'. apply H. now right.
Qed.

Lemma loop_returns (w h : view) (keys : list string) (changed : dict) :
  (forall k, In k keys -> exists r, compare w h k = Ok r) ->
  exists d, loop w h keys changed = Ok d
            /\ (changed <> [] -> d <> [])
            /\ ((exists k c, In k keys /\ compare w h k = Ok (Some c)) ->
                d <> [])
            /\ (forall x, In x (dict_keys d) ->
                          In x (dict_keys changed) \/ In x keys).
Proof.
  revert changed. induction keys as [|k rest IH]; intros changed H; simpl.
  - exists changed. repeat split; auto.
    intros (k & c & [] & _).
  - destruct (H k) as [r Hr]; [now left|]. rewrite Hr. simpl.
    assert (H' : forall k', In k' rest -> exists r', compare w h k' = Ok r')
      by (intros k' Hk'; apply H; now right).
    destruct r as [c|].
    + destruct (IH (dict_set k c changed) H') as (d & Hd & Hne & _ & Hkeys).
      exists d. split; [assumption|].
      pose proof (Hne (dict_set_not_empty k c changed)) as Hd'.
      repeat split; auto.
      intros x Hx. destruct (Hkeys x Hx) as [Hx'|Hx'].
      * apply dict_keys_set in Hx'. destruct Hx' as [->|Hx'];
          [right; now left | now left].
      * right; now right.
    + destruct (IH changed H') as (d & Hd & Hne & Hsome & Hkeys).
      exists d. split; [assumption|]. repeat split; auto.
      * intros (k' & c & [<-|Hin] & Hc).
        -- rewrite Hr in Hc. discriminate.
        -- apply Hsome. now exists k', c.
      * intros x Hx. destruct (Hkeys x Hx); [now left | right; now right].
Qed.

End UpdateFacts.

Section ExecFacts.

Variable device : Type.
Variable api : request -> device -> response * device.
Variable ApiParameters : jbody -> view.
Variable api_params : dict -> result dict.
Variable reportable : dict -> dict.
Variable kind : string.
Variable updatables returnables : list string.
Variable properties : string -> option (view -> view -> result pyobj).
Variable create_defaults : view -> result view.
Variable name partition state : string.
Variable check_mode : bool.

Local Abbreviation compare := (Difference_compare properties).
Local Abbreviation loop := (update_loop properties).
Local Abbreviation run :=
  (exec_module device api ApiParameters api_params reportable kind
     updatables returnables properties create_defaults name partition
     state check_mode).

Lemma call_frame (v : verb) (u : uri) (body : option dict)
    (self : manager device) :
  exists resp self',
    call device api v u body self = (Ok resp, self')
    /\ log self' = (log self ++ [{| req_verb := v; req_uri := u; req_json := body |}])%list
    /\ changes self' = changes self
    /\ want self' = want self /\ have self' = have self
    /\ (forall r, answers api (dev self) r -> resp = r).
Proof.
  unfold call. destruct (api _ (dev self)) as [r d] eqn:E.
  exists r, {| dev := d; log := (log self ++ [{| req_verb := v; req_uri := u; req_json := body |}])%list;
               want := want self; have := have self; changes := changes self |}.
  repeat split. intros r' H. specialize (H {| req_verb := v; req_uri := u; req_json := body |}).
  rewrite E in H. now simpl in H.
Qed.

Lemma exists_frame (self self' : manager device) (r : result bool) :
  exists_ device api kind name partition self = (r, self') ->
  one_call GET self self' /\ changes self' = changes self
  /\ want self' = want self /\ have self' = have self.
Proof.
  unfold exists_, bind.
  destruct (call_frame GET (Item kind partition name) None self)
    as (resp & s1 & Hc & Hl & Hch & Hw & Hh & _).
  rewrite Hc. intros H.
  assert (self' = s1).
  { destruct (json resp) as [ex|body]; [now inversion H|].
    destruct ((status resp =? 404) || code_in body [404]); now inversion H. }
  subst s1. repeat split; auto. eexists; split; [|exact Hl]. reflexivity.
Qed.

Lemma read_frame (self self' : manager device) (r : result view) :
  read_current_from_device device api ApiParameters kind name partition self
  = (r, self') ->
  one_call GET self self' /\ changes self' = changes self
  /\ want self' = want self /\ have self' = have self.
Proof.
  unfold read_current_from_device, bind.
  destruct (call_frame GET (Item kind partition name) None self)
    as (resp & s1 & Hc & Hl & Hch & Hw & Hh & _).
  rewrite Hc. intros H.
  assert (self' = s1).
  { destruct (json resp) as [ex|body]; [now inversion H|].
    unfold lift in H. now inversion H. }
  subst s1. repeat split; auto. eexists; split; [|exact Hl]. reflexivity.
Qed.

Lemma run_has_changed (self : manager device) (res : dict)
    (self' : manager device) :
  run self = (Ok res, self') ->
  exists b, dict_get "changed" res = Some (VBool b).
Proof.
  unfold exec_module, bind at 1.
  match goal with
  | |- context [match ?c self with _ => _ end] =>
      destruct (c self) as [[changed|e] s1]; [|discriminate]
  end.
  unfold bind, get_changes, ret. intros [= <- _].
  exists changed. apply changed_key.
Qed.

(** C1, amended.  For [exec_module] with state present on a profile that
    exists and whose current state is read back: two GET calls have been
    made; when [Difference.compare] finds no change for any updatable
    field the result reports changed=False and no further call is made;
    when it raises for none and finds a change for at least one, the
    changes are not empty and the result reports changed=True, with no
    further call in check mode and with the single PATCH of those changes
    otherwise (when the device accepts it).  For a field that
    [Difference] has no property for, [compare] finds no change exactly
    when the desired value is [None] or equals the device's, and
    otherwise the change is the desired value: that is every field of
    the TCP module, and every field of the HTTP module but [parent],
    [dns_resolver], [header_erase], [header_insert], [server_agent_name],
    [encrypt_cookies], [encrypt_cookie_secret], [xff_alternative_names],
    [fallback_status_codes] and [known_methods].  A result that
    [exec_module] returns always has a boolean under 'changed'. *)
Theorem update_changed_flag (self0 self1 self2 : manager device) (h : view)
    (Hstate : state = "present")
    (Hexists : exists_ device api kind name partition self0 = (Ok true, self1))
    (Hread : read_current_from_device device api ApiParameters kind name
               partition self1 = (Ok h, self2)) :
  let w := want self0 in
  (exists rq1 rq2,
      req_verb rq1 = GET /\ req_verb rq2 = GET
      /\ log self2 = (log self0 ++ [rq1; rq2])%list)
  /\ ((forall k, In k updatables -> compare w h k = Ok None) ->
      exists res self',
        run self0 = (Ok res, self')
        /\ dict_get "changed" res = Some (VBool false)
        /\ log self' = log self2)
  /\ ((forall k, In k updatables -> exists r, compare w h k = Ok r) ->
      (exists k c, In k updatables /\ compare w h k = Ok (Some c)) ->
      exists d,
        loop w h updatables [] = Ok d /\ d <> []
        /\ (check_mode = true ->
            exists res self',
              run self0 = (Ok res, self')
              /\ dict_get "changed" res = Some (VBool true)
              /\ log self' = log self2)
        /\ (check_mode = false ->
            forall params resp body,
              api_params d = Ok params ->
              answers api (dev self2) resp ->
              json resp = inr body ->
              code_in body [400; 404] = false ->
              exists res self',
                run self0 = (Ok res, self')
                /\ dict_get "changed" res = Some (VBool true)
                /\ log self'
                   = (log self2
                      ++ [{| req_verb := PATCH;
                             req_uri := Item kind partition name;
                             req_json := Some params |}])%list))
  /\ (forall k wv hv,
        properties k = None -> w k = Ok wv -> h k = Ok hv ->
        compare w h k = Ok (if obj_eq wv hv then None else wv))
  /\ (forall res self',
        run self0 = (Ok res, self') ->
        exists b, dict_get "changed" res = Some (VBool b))
  /\ (forall k, Tcp.Difference.properties k = None)
  /\ (forall cmp_simple_list k,
        mem k http_difference_properties = false ->
        Http.Difference.properties cmp_simple_list k = None).
Proof.
  intros w.
  destruct (exists_frame _ _ _ Hexists) as ((rq1 & Hv1 & Hl1) & Hc1 & Hw1 & _).
  destruct (read_frame _ _ _ Hread) as ((rq2 & Hv2 & Hl2) & Hc2 & Hw2 & _).
  assert (Hrun : forall d, loop w h updatables [] = Ok d ->
            run self0
            = (let after := {| dev := dev self2; log := log self2;
                               want := w; have := h;
                               changes := changes self2 |} in
               match d with
               | [] => (Ok (dict_pop "__warnings"
                             (dict_set "changed" (VBool false)
                                (reportable (changes self2)))), after)
               | _ =>
                   let changed := {| dev := dev self2; log := log self2;
                                     want := w; have := h; changes := d |} in
                   if check_mode then
                     (Ok (dict_pop "__warnings"
                            (dict_set "changed" (VBool true) (reportable d))),
                      changed)
                   else
                     match update_on_device device api api_params kind name
                             partition changed with
                     | (Ok _, s3) =>
                         (Ok (dict_pop "__warnings"
                                (dict_set "changed" (VBool true)
                                   (reportable (changes s3)))), s3)
                     | (Raise e, s3) => (Raise e, s3)
                     end
               end)).
  { intros d Hd. unfold exec_module. rewrite Hstate.
    cbn [String.eqb Ascii.eqb Bool.eqb].
    unfold present, bind at 1 2. rewrite Hexists.
    unfold update, bind. rewrite Hread.
    unfold set_have, should_update, _update_changed_options, bind,
      get_want, get_have, lift.
    cbn [want have]. rewrite Hw2, Hw1. fold w. rewrite Hd.
    destruct d as [|kv d']; [reflexivity|].
    unfold set_changes, ret, get_changes. cbn [negb dev log want have changes].
    destruct check_mode; [reflexivity|].
    destruct (update_on_device _ _ _ _ _ _ _) as [[u|e] s3]; reflexivity. }
  split; [|split; [|split; [|split; [|split; [|split]]]]].
  - exists rq1, rq2. repeat split; auto.
    now rewrite Hl2, Hl1, <- app_assoc.
  - intros Hnone.
    rewrite (Hrun [] (loop_unchanged properties w h updatables [] Hnone)).
    eexists _, _. split; [reflexivity|]. split; [apply changed_key | reflexivity].
  - intros Hret Hsome.
    destruct (loop_returns properties w h updatables [] Hret)
      as (d & Hd & _ & Hne & _).
    specialize (Hne Hsome). exists d. split; [assumption|].
    split; [assumption|]. rewrite (Hrun d Hd).
    destruct d as [|kv d']; [contradiction|]. cbv zeta.
    split.
    + intros ->. eexists _, _. split; [reflexivity|].
      split; [apply changed_key | reflexivity].
    + intros -> params resp body Hp Ha Hj Hcode.
      unfold update_on_device, bind, get_changes, lift.
      cbn [changes]. rewrite Hp.
      match goal with
      | |- context [call device api PATCH ?u ?b ?s] =>
          destruct (call_frame PATCH u b s)
            as (resp' & s3 & Hcall & Hl3 & Hch3 & _ & _ & Hresp)
      end.
      rewrite Hcall. rewrite (Hresp resp Ha), Hj.
      unfold raise_on_codes. rewrite Hcode.
      eexists _, _. split; [reflexivity|].
      split; [apply changed_key | exact Hl3].
  - intros k wv hv. apply default_rule.
  - apply run_has_changed.
  - reflexivity.
  - intros cmp_simple_list k Hk. unfold mem in Hk. simpl in Hk.
    repeat (apply orb_false_elim in Hk; destruct Hk as [?E Hk]).
    unfold Http.Difference.properties.
    now rewrite E, E0, E1, E2, E3, E4, E5, E6, E7, E8.
Qed.

End ExecFacts.

(** C1, as stated, fails: the task asks for [header_erase: none], the
    device has no [headerErase] (so the desired value is not [None] and
    differs from the device's, [None]), and the result reports
    changed=False. *)
Lemma changed_false_despite_difference :
  In "header_erase" Http.updatables
  /\ want_header_erase_none "header_erase" = Ok (Some (VStr "none"))
  /\ Http.ApiParameters http_profile_on_device "header_erase" = Ok None
  /\ obj_eq (Some (VStr "none")) None = false
  /\ fst (http_run want_header_erase_none) = Ok [("changed", VBool false)].
Proof.
  split; [simpl; tauto|]. repeat split.
Qed.

Lemma update_changed_flag_witness :
  exists res self',
    tcp_run want_nagle = (Ok res, self')
    /\ dict_get "changed" res = Some (VBool true)
    /\ exists rq, In rq (log self') /\ req_verb rq = PATCH.
Proof.
  pose (self0 := Tcp.ModuleManager.init unit Tcp.ApiParameters tt want_nagle).
  pose (self1 := snd (Tcp.ModuleManager.exists_ unit tcp_device
                        "my_profile" "Common" self0)).
  pose (self2 := snd (Tcp.ModuleManager.read_current_from_device unit
                        tcp_device Tcp.ApiParameters "my_profile" "Common"
                        self1)).
  pose (body := {| fields := [ ("name", VStr "my_profile");
                               ("defaultsFrom", VStr "/Common/tcp");
                               ("idleTimeout", VInt 300);
                               ("nagle", VStr "disabled") ];
                   objects := [] |}).
  destruct (update_changed_flag unit tcp_device Tcp.ApiParameters plain_params
              plain_report "tcp" Tcp.updatables Tcp.returnables
              Tcp.Difference.properties
              (Tcp.ModuleManager.create_defaults slash_name "Common")
              "my_profile" "Common" "present" false
              self0 self1 self2 (Tcp.ApiParameters body)
              eq_refl eq_refl eq_refl)
    as (_ & _ & Hchanged & _).
  destruct Hchanged as (d & Hd & _ & _ & Hrun).
  - intros k Hk. simpl in Hk.
    repeat (destruct Hk as [<-|Hk]; [eexists; reflexivity|]).
    contradiction.
  - exists "nagle", (VStr "enabled"). split; [simpl; tauto | reflexivity].
  - destruct (Hrun eq_refl d (reply 200 (fields body)) body eq_refl
                (fun _ => eq_refl) eq_refl eq_refl)
      as (res & self' & Hr & Hc & Hl).
    exists res, self'. split; [exact Hr|]. split; [exact Hc|].
    exists {| req_verb := PATCH; req_uri := Item "tcp" "Common" "my_profile";
              req_json := Some d |}.
    split; [|reflexivity]. rewrite Hl. apply in_or_app.
    right. left. reflexivity.
Defined.

(* ===================================================================== *)
(** * The parent of an existing HTTP profile *)
(* ===================================================================== *)

Lemma loop_keys (properties : string -> option (view -> view -> result pyobj))
    (w h : view) (keys : list string) :
  forall changed d,
    update_loop properties w h keys changed = Ok d ->
    forall x, In x (dict_keys d) -> In x (dict_keys changed) \/ In x keys.
Proof.
  induction keys as [|k rest IH]; intros changed d; simpl.
  - intros [= <-] x Hx. now left.
  - destruct (Difference_compare properties w h k) as [[c|]|e]; simpl;
      try discriminate; intros Hd x Hx.
    + destruct (IH _ _ Hd x Hx) as [Hx'|Hx'].
      * apply dict_keys_set in Hx'. destruct Hx' as [->|Hx'];
          [right; now left | now left].
      * right; now right.
    + destruct (IH _ _ Hd x Hx); [now left | right; now right].
Qed.

Lemma dict_get_absent (k : string) (d : dict) :
  ~ In k (dict_keys d) -> dict_get k d = None.
Proof.
  unfold dict_keys. induction d as [|[k' v] r IH]; simpl; [reflexivity|].
  intros H. destruct (String.eqb_spec k k') as [->|Hne].
  - exfalso. apply H. now left.
  - apply IH. intros Hin. apply H. now right.
Qed.

(** C9.  The task names the parent /Common/other for a profile whose
    parent on the device is /Common/http, and a new description.
    [Difference.parent] would raise for this pair, but 'parent' is not
    among the updatables, so [compare] is never asked about it: the run
    raises nothing, sends the PATCH with the description and reports
    changed=True.  What does hold: the changes that an update collects
    never have a 'parent'. *)
Theorem parent_change_is_not_detected :
  (forall cmp_simple_list w h d,
      update_loop (Http.Difference.properties cmp_simple_list) w h
        Http.updatables [] = Ok d ->
      dict_get "parent" d = None)
  /\
  want_other_parent "parent" = Ok (Some (VStr "/Common/other"))
  /\ Http.ApiParameters http_profile_on_device "parent"
     = Ok (Some (VStr "/Common/http"))
  /\ Http.Difference.parent want_other_parent
       (Http.ApiParameters http_profile_on_device)
     = Raise (F5ModuleError (VStr "The parent http profile cannot be changed"))
  /\ mem "parent" Http.updatables = false
  /\ fst (http_run want_other_parent)
     = Ok [("description", VStr "new text"); ("changed", VBool true)]
  /\ log (snd (http_run want_other_parent))
     = [ {| req_verb := GET; req_uri := Item "http" "Common" "my_profile";
            req_json := None |};
         {| req_verb := GET; req_uri := Item "http" "Common" "my_profile";
            req_json := None |};
         {| req_verb := PATCH; req_uri := Item "http" "Common" "my_profile";
            req_json := Some [("description", VStr "new text")] |} ].
Proof.
  split; [|repeat split].
  intros cmp_simple_list w h d Hd. apply dict_get_absent. intros Hin.
  destruct (loop_keys _ _ _ _ _ _ Hd _ Hin) as [[]|Hup].
  apply mem_In in Hup. vm_compute in Hup. discriminate.
Qed.

(* ===================================================================== *)
(** * Reported values, fed back *)
(* ===================================================================== *)

Lemma folded_range_int sentinel dflt lo hi msg n :
  lo <= n <= hi ->
  folded_range sentinel dflt lo hi msg (Some (VInt n)) = Ok (Some (VInt n)).
Proof.
  intros Hr. unfold folded_range. cbn [py_eq int_of rbind].
  apply in_range_spec in Hr. now rewrite Hr.
Qed.

Lemma fold_back_str sentinel dflt lo hi msg n :
  py_str n <> sentinel -> lo <= n <= hi ->
  folded_range sentinel dflt lo hi msg (unfold_str sentinel dflt (Some (VInt n)))
  = Ok (Some (VInt n)).
Proof.
  intros Hne Hr. rewrite unfold_str_number.
  destruct (Z.eqb_spec n dflt) as [->|Hd].
  - apply folded_range_sentinel.
  - rewrite (folded_range_number _ _ _ _ _ _ n (py_int_py_str n) Hne).
    apply in_range_spec in Hr. now rewrite Hr.
Qed.

(** X1.  The value a reporter shows for a wire number in range, given back
    as the parameter, yields the same wire number: for [max_header_count],
    [max_header_size], [max_requests], [maximum_age] and the TCP
    [idle_timeout], the folded default included. *)
Theorem reported_value_folds_back (n : Z) :
  let e c z r := Some (Http.enforcement_of c z r None None) in
  (16 <= n <= 4096 ->
   Http.ModuleParameters.max_header_count
     (e (Http.ReportableChanges.max_header_count (Some (VInt n))) None None)
   = Ok (Some (VInt n)))
  /\ (0 <= n <= 4294967295 ->
      Http.ModuleParameters.max_header_size
        (e None (Http.ReportableChanges.max_header_size (Some (VInt n))) None)
      = Ok (Some (VInt n))
      /\ Http.ModuleParameters.max_requests
           (e None None (Http.ReportableChanges.max_requests (Some (VInt n))))
         = Ok (Some (VInt n))
      /\ rbind (Http.ReportableChanges.maximum_age (Some (VInt n)))
               Http.ModuleParameters.maximum_age
         = Ok (Some (VInt n)))
  /\ rbind (Tcp.ReportableChanges.idle_timeout (Some (VInt n)))
           Tcp.ModuleParameters.idle_timeout
     = Ok (Some (VInt n)).
Proof.
  intros e. destruct (py_str_not_sentinel n) as [Hd Hi].
  split; [|split].
  - intros Hr. apply (fold_back_str "default" 64 16 4096 _ n Hd Hr).
  - intros Hr. split; [|split].
    + apply (fold_back_str "default" 32768 0 4294967295 _ n Hd Hr).
    + apply (fold_back_str "default" 0 0 4294967295 _ n Hd Hr).
    + unfold Http.ReportableChanges.maximum_age, Http.ModuleParameters.maximum_age.
      rewrite unfold_int_number. cbn [rbind].
      destruct (Z.eqb_spec n 4294967295) as [->|Hne].
      * apply folded_range_sentinel.
      * now apply folded_range_int.
  - unfold Tcp.ReportableChanges.idle_timeout. rewrite unfold_int_number.
    cbn [rbind]. destruct (Z.eqb_spec n 4294967295) as [->|Hne]; reflexivity.
Qed.

Lemma reported_value_folds_back_witness :
  Http.ModuleParameters.max_header_count
    (Some (Http.enforcement_of
             (Http.ReportableChanges.max_header_count (Some (VInt 64)))
             None None None None))
  = Ok (Some (VInt 64))
  /\ Http.ModuleParameters.max_requests
       (Some (Http.enforcement_of None None
                (Http.ReportableChanges.max_requests (Some (VInt 100)))
                None None))
     = Ok (Some (VInt 100)).
Proof.
  pose proof (reported_value_folds_back 64) as H1.
  pose proof (reported_value_folds_back 100) as H2.
  cbv zeta in H1, H2.
  destruct H1 as [H1 _]. destruct H2 as (_ & H2 & _).
  split; [apply H1; lia|].
  assert (Hr : 0 <= 100 <= 4294967295) by lia.
  exact (proj1 (proj2 (H2 Hr))).
Defined.

Lemma set_eq_sym (a b : list string) : set_eq a b = set_eq b a.
Proof. unfold set_eq. apply andb_comm. Qed.

(** X2.  A list of known methods as the device holds it (without the word
    'default', and not the list of the one empty string) is reported as a
    list that is never empty and that, given back as the parameter, expands
    to the device's list again, as a set. *)
Theorem reported_methods_expand_back (wire : list string)
    (Hdefault : mem "default" wire = false) (Hempty : wire <> [""]) :
  exists user back,
    Http.ReportableChanges.known_methods (Some wire) = Some user
    /\ user <> []
    /\ expand_known user = Some back
    /\ set_eq back wire = true.
Proof.
  destruct wire as [|a r].
  - exists [""], []. repeat split. discriminate.
  - rewrite report_nonempty by discriminate.
    destruct (set_eq (a :: r) Http.defaults) eqn:E1.
    + exists ["default"], Http.defaults. repeat split; [discriminate|].
      now rewrite set_eq_sym.
    + destruct (subset Http.defaults (a :: r)) eqn:E2.
      * set (user := (filter (fun item => negb (mem item Http.defaults)) (a :: r)
                      ++ ["default"])%list).
        assert (Hu : mem "default" user = true).
        { apply mem_In, in_or_app. right. now left. }
        exists user, (filter (fun m => negb (String.eqb m "default")) user
                      ++ Http.defaults)%list.
        split; [reflexivity|].
        split; [intros E; apply app_eq_nil in E; destruct E; discriminate|].
        split; [now apply expand_with_default|].
        apply set_eq_spec. intros x. rewrite subset_spec in E2. split.
        -- intros Hx. apply in_app_or in Hx. destruct Hx as [Hx|Hx]; [|now apply E2].
           apply In_not_default in Hx. destruct Hx as [Hx Hne].
           apply in_app_or in Hx. destruct Hx as [Hx|[<-|[]]]; [|contradiction].
           now apply In_not_method in Hx.
        -- intros Hx. apply in_or_app.
           destruct (mem x Http.defaults) eqn:Em; [right; now apply mem_In|].
           left. apply In_not_default. split.
           ++ apply in_or_app. left. apply In_not_method. split; [assumption|].
              intros HD. apply mem_In in HD. congruence.
           ++ intros ->. apply mem_In in Hx. congruence.
      * exists (a :: r), (a :: r). split; [reflexivity|].
        split; [discriminate|].
        split; [now apply expand_without_default | apply set_eq_refl].
Qed.

Lemma reported_methods_expand_back_witness :
  exists user back,
    Http.ReportableChanges.known_methods (Some ("FOO" :: Http.defaults))
    = Some user
    /\ user <> []
    /\ expand_known user = Some back
    /\ set_eq back ("FOO" :: Http.defaults) = true.
Proof.
  apply (reported_methods_expand_back ("FOO" :: Http.defaults)).
  - reflexivity.
  - discriminate.
Defined.

(* ===================================================================== *)
(** * The remaining accessors *)
(* ===================================================================== *)

(** X3.  [poll_interval] and [sampling_rate] pass [None] through (a missing
    [sflow] dictionary or a missing entry), return a number within
    0..4294967295 as it is and raise [F5ModuleError] for any other number;
    neither looks at the other entries of the dictionary. *)
Theorem sflow_numbers_are_bounded (n : Z) (a b c : pyobj) :
  let polled v := HttpParams.poll_interval
    (Some {| Http.arg_poll_interval := v; Http.arg_poll_interval_global := a;
             Http.arg_sampling_rate := b; Http.arg_sampling_rate_global := c |}) in
  let sampled v := HttpParams.sampling_rate
    (Some {| Http.arg_poll_interval := a; Http.arg_poll_interval_global := b;
             Http.arg_sampling_rate := v; Http.arg_sampling_rate_global := c |}) in
  (HttpParams.poll_interval None = Ok None
   /\ HttpParams.sampling_rate None = Ok None
   /\ polled None = Ok None /\ sampled None = Ok None)
  /\ (0 <= n <= 4294967295 ->
      polled (Some (VInt n)) = Ok (Some (VInt n))
      /\ sampled (Some (VInt n)) = Ok (Some (VInt n)))
  /\ (~ 0 <= n <= 4294967295 ->
      raises_F5 (polled (Some (VInt n))) /\ raises_F5 (sampled (Some (VInt n)))).
Proof.
  intros polled sampled. split; [repeat split|].
  unfold polled, sampled, HttpParams.poll_interval, HttpParams.sampling_rate,
    HttpParams.sflow_number. cbn.
  destruct (in_range 0 4294967295 n) eqn:E; split; intros H.
  - now split.
  - apply in_range_spec in E. contradiction.
  - apply in_range_spec in H. congruence.
  - split; now eexists.
Qed.

Lemma sflow_numbers_are_bounded_witness :
  HttpParams.poll_interval
    (Some {| Http.arg_poll_interval := Some (VInt 30);
             Http.arg_poll_interval_global := Some (VBool false);
             Http.arg_sampling_rate := None;
             Http.arg_sampling_rate_global := None |})
  = Ok (Some (VInt 30))
  /\ raises_F5 (HttpParams.sampling_rate
       (Some {| Http.arg_poll_interval := None;
                Http.arg_poll_interval_global := None;
                Http.arg_sampling_rate := Some (VInt (-1));
                Http.arg_sampling_rate_global := None |})).
Proof.
  split.
  - apply (sflow_numbers_are_bounded 30 (Some (VBool false)) None None). lia.
  - apply (sflow_numbers_are_bounded (-1) None None None). lia.
Defined.

(** X4.  [proxy_type] returns every type other than 'explicit' as it is,
    whatever the resolver; 'explicit' is returned when the module's
    [dns_resolver] is a non-empty name and raises [F5ModuleError] when it
    is [None] or empty, which is the case for a resolver left out or given
    as '' or 'none'. *)
Theorem explicit_proxy_needs_resolver (fq_name : string -> string -> string)
    (partition t : string) (resolver : option string) :
  HttpParams.proxy_type fq_name partition None resolver = Ok None
  /\ (t <> "explicit" ->
      HttpParams.proxy_type fq_name partition (Some t) resolver = Ok (Some t))
  /\ (HttpParams.dns_resolver fq_name partition resolver = None
      \/ HttpParams.dns_resolver fq_name partition resolver = Some "" ->
      raises_F5 (HttpParams.proxy_type fq_name partition (Some "explicit") resolver))
  /\ (forall r, HttpParams.dns_resolver fq_name partition resolver = Some r ->
                r <> "" ->
                HttpParams.proxy_type fq_name partition (Some "explicit") resolver
                = Ok (Some "explicit"))
  /\ (resolver = None \/ resolver = Some "" \/ resolver = Some "none" ->
      raises_F5 (HttpParams.proxy_type fq_name partition (Some "explicit") resolver)).
Proof.
  assert (Hraise : HttpParams.dns_resolver fq_name partition resolver = None
      \/ HttpParams.dns_resolver fq_name partition resolver = Some "" ->
      raises_F5 (HttpParams.proxy_type fq_name partition (Some "explicit") resolver)).
  { unfold HttpParams.proxy_type. cbn [String.eqb Ascii.eqb Bool.eqb].
    intros [H|H]; rewrite H; now eexists. }
  split; [reflexivity|]. split; [|split; [exact Hraise|split]].
  - intros Hne. unfold HttpParams.proxy_type.
    apply String.eqb_neq in Hne. now rewrite Hne.
  - intros r Hr Hne. unfold HttpParams.proxy_type.
    cbn [String.eqb Ascii.eqb Bool.eqb]. rewrite Hr.
    apply String.eqb_neq in Hne. now rewrite Hne.
  - intros [->|[->| ->]]; apply Hraise; [now left | now right | now right].
Qed.

Lemma explicit_proxy_needs_resolver_witness :
  HttpParams.proxy_type slash_name "Common" (Some "transparent") None
  = Ok (Some "transparent")
  /\ raises_F5 (HttpParams.proxy_type slash_name "Common" (Some "explicit")
                  (Some "none"))
  /\ HttpParams.proxy_type slash_name "Common" (Some "explicit") (Some "res1")
     = Ok (Some "explicit").
Proof.
  split; [|split].
  - apply (explicit_proxy_needs_resolver slash_name "Common" "transparent" None).
    discriminate.
  - apply (explicit_proxy_needs_resolver slash_name "Common" "x" (Some "none")).
    right. now right.
  - apply (explicit_proxy_needs_resolver slash_name "Common" "x" (Some "res1")
             ) with (r := "/Common/res1"); [reflexivity | discriminate].
Defined.

Lemma split_free (s : string) :
  free_of "/" s = true -> HttpParams.split_on "/" s = [s].
Proof.
  induction s as [|c r IH]; simpl; [reflexivity|].
  intros H. apply andb_prop in H. destruct H as [Hc Hr].
  apply negb_true_iff in Hc. rewrite Hc, (IH Hr). reflexivity.
Qed.

Lemma split_prefix (p rest : string) :
  free_of "/" p = true ->
  HttpParams.split_on "/" (p ++ String "/" rest)
  = p :: HttpParams.split_on "/" rest.
Proof.
  induction p as [|c r IH]; simpl; [reflexivity|].
  intros H. apply andb_prop in H. destruct H as [Hc Hr].
  apply negb_true_iff in Hc. rewrite Hc, (IH Hr). reflexivity.
Qed.

(** X5.  [dns_resolver_address] is [None] without a resolver; for a
    resolver whose qualified name is [/P/N] it is the link
    [https://localhost/mgmt/tm/net/dns-resolver/~P~N], and
    [explicit_proxy] pairs the qualified name with it; for a resolver given
    as '' or 'none' (the spelling that removes it) the empty name has no
    second part, so both raise [IndexError]. *)
Theorem resolver_link (fq_name : string -> string -> string)
    (partition x P N : string) :
  HttpParams.dns_resolver_address fq_name partition None = HttpParams.Found None
  /\ (x = "" \/ x = "none" ->
      HttpParams.dns_resolver_address fq_name partition (Some x)
      = HttpParams.IndexError
      /\ HttpParams.explicit_proxy fq_name partition (Some x)
         = HttpParams.IndexError)
  /\ (x <> "" -> x <> "none" ->
      fq_name partition x = "/" ++ P ++ "/" ++ N ->
      free_of "/" P = true -> free_of "/" N = true ->
      HttpParams.dns_resolver_address fq_name partition (Some x)
      = HttpParams.Found
          (Some ("https://localhost/mgmt/tm/net/dns-resolver/~" ++ P ++ "~" ++ N))
      /\ HttpParams.explicit_proxy fq_name partition (Some x)
         = HttpParams.Found
             (Some ("/" ++ P ++ "/" ++ N,
                    Some ("https://localhost/mgmt/tm/net/dns-resolver/~"
                          ++ P ++ "~" ++ N)))).
Proof.
  split; [reflexivity|]. split.
  - intros [->| ->]; split; reflexivity.
  - intros H1 H2 Hfq HP HN.
    assert (Hd : HttpParams.dns_resolver fq_name partition (Some x)
                 = Some ("/" ++ P ++ "/" ++ N)).
    { unfold HttpParams.dns_resolver.
      apply String.eqb_neq in H1, H2. now rewrite H1, H2, Hfq. }
    assert (Ha : HttpParams.dns_resolver_address fq_name partition (Some x)
      = HttpParams.Found
          (Some ("https://localhost/mgmt/tm/net/dns-resolver/~" ++ P ++ "~" ++ N))).
    { unfold HttpParams.dns_resolver_address. rewrite Hd.
      change ("/" ++ P ++ "/" ++ N) with (String "/" (P ++ String "/" N)).
      cbn [HttpParams.split_on Ascii.eqb Bool.eqb].
      rewrite (split_prefix P N HP), (split_free N HN). reflexivity. }
    split; [exact Ha|].
    unfold HttpParams.explicit_proxy. now rewrite Hd, Ha.
Qed.

Lemma resolver_link_witness :
  HttpParams.dns_resolver_address slash_name "Common" (Some "none")
  = HttpParams.IndexError
  /\ HttpParams.dns_resolver_address slash_name "Common" (Some "res1")
     = HttpParams.Found
         (Some "https://localhost/mgmt/tm/net/dns-resolver/~Common~res1").
Proof.
  split.
  - apply (resolver_link slash_name "Common" "none" "" ""). now right.
  - apply (resolver_link slash_name "Common" "res1" "Common" "res1");
      [discriminate | discriminate | reflexivity | reflexivity | reflexivity].
Defined.



(** X7.  [fallback_status_codes] judges each code on its own: a list is
    returned exactly when each of its two parts is, the empty list is
    returned, and what is returned is always the list that came in. *)
Theorem fallback_codes_are_judged_one_by_one (l1 l2 : list string) :
  (returns (Http.ModuleParameters.fallback_status_codes (Some (l1 ++ l2)%list))
   <-> returns (Http.ModuleParameters.fallback_status_codes (Some l1))
       /\ returns (Http.ModuleParameters.fallback_status_codes (Some l2)))
  /\ Http.ModuleParameters.fallback_status_codes (Some []) = Ok (Some [])
  /\ (forall r, Http.ModuleParameters.fallback_status_codes (Some l1) = Ok r ->
                r = Some l1)
  /\ (returns (Http.ModuleParameters.fallback_status_codes (Some l1))
      \/ raises_F5 (Http.ModuleParameters.fallback_status_codes (Some l1))).
Proof.
  assert (Hspec : forall l,
    Http.ModuleParameters.fallback_status_codes (Some l)
    = if existsb (fun code => Http.re_search Http.p1_at code
                              && Http.re_search Http.p2_at code) l
      then Raise (F5ModuleError (VStr Http.ModuleParameters.invalid_code))
      else Ok (Some l)).
  { intros l. unfold Http.ModuleParameters.fallback_status_codes.
    rewrite check_codes_spec. now destruct (existsb _ l). }
  split; [|split; [reflexivity|split]].
  - rewrite !Hspec, existsb_app.
    destruct (existsb _ l1); destruct (existsb _ l2); cbn [orb]; split;
      try (intros [a H]; discriminate);
      try (intros [[a H] [b H']]; discriminate);
      try (intros _; split; now eexists);
      try (intros _; now eexists).
  - intros r. rewrite Hspec. destruct (existsb _ l1); [discriminate|].
    now intros [= <-].
  - rewrite Hspec. destruct (existsb _ l1); [right | left]; now eexists.
Qed.

(* ===================================================================== *)
(** * The properties of the HTTP module's Difference *)
(* ===================================================================== *)

(** X8.  [header_erase], [header_insert] and [server_agent_name] are
    compared alike.  Nothing desired is no change; asking to remove the
    value ('none' or '') from a device that has none ([None] or 'none') is
    no change; a desired value equal to the device's is no change; every
    other request is a change that carries the desired value. *)
Theorem header_removal_is_idempotent (field : string) (w h : view)
    (wv hv : pyobj) (Hw : w field = Ok wv) (Hh : h field = Ok hv) :
  let removal := obj_in wv [Some (VStr "none"); Some (VStr "")] in
  let absent_ := obj_in hv [None; Some (VStr "none")] in
  (Http.Difference.header_erase = Http.Difference.none_or_empty "header_erase"
   /\ Http.Difference.header_insert = Http.Difference.none_or_empty "header_insert"
   /\ Http.Difference.server_agent_name
      = Http.Difference.none_or_empty "server_agent_name")
  /\ (wv = None -> Http.Difference.none_or_empty field w h = Ok None)
  /\ (removal = true -> absent_ = true ->
      Http.Difference.none_or_empty field w h = Ok None)
  /\ (obj_eq wv hv = true -> Http.Difference.none_or_empty field w h = Ok None)
  /\ (wv <> None -> obj_eq wv hv = false -> removal && absent_ = false ->
      Http.Difference.none_or_empty field w h = Ok wv).
Proof.
  intros removal absent_. split; [repeat split|].
  unfold Http.Difference.none_or_empty. rewrite Hw. cbn [rbind].
  split; [intros ->; reflexivity|].
  destruct wv as [x|]; [|repeat split; reflexivity || contradiction].
  rewrite Hh. cbn [rbind]. fold removal absent_. split; [|split].
  - intros -> ->. reflexivity.
  - intros E. rewrite E. now destruct (removal && absent_).
  - intros _ E1 E2. now rewrite E2, E1.
Qed.

Lemma header_removal_is_idempotent_witness :
  Http.Difference.header_erase want_header_erase_none
    (Http.ApiParameters http_profile_on_device)
  = Ok None.
Proof.
  pose proof (header_removal_is_idempotent "header_erase"
                want_header_erase_none
                (Http.ApiParameters http_profile_on_device)
                (Some (VStr "none")) None eq_refl eq_refl) as H.
  cbv zeta in H. destruct H as (_ & _ & H & _).
  apply H; reflexivity.
Defined.

(** X9.  [Difference.dns_resolver]: nothing desired is no change.  A
    desired resolver name is a change only when the device has no
    resolver; a resolver already on the device is never replaced by
    another one.  The empty name (removal) is no change when the device has
    no resolver or has 'none'; otherwise it raises [F5ModuleError] when the
    device's proxy type is 'explicit' and the task names no proxy type, and
    is a change in every other case. *)
Theorem resolver_difference (w h : view) (wd hd : pyobj)
    (Hw : w "dns_resolver" = Ok wd) (Hh : h "dns_resolver" = Ok hd) :
  (wd = None -> Http.Difference.dns_resolver w h = Ok None)
  /\ (wd <> None -> obj_eq wd (Some (VStr "")) = false ->
      Http.Difference.dns_resolver w h
      = Ok (match hd with None => wd | Some _ => None end))
  /\ (obj_eq wd (Some (VStr "")) = true ->
      (obj_eq hd None || obj_eq hd (Some (VStr "none")) = true ->
       Http.Difference.dns_resolver w h = Ok None)
      /\ (obj_eq hd None || obj_eq hd (Some (VStr "none")) = false ->
          forall hp wp,
            h "proxy_type" = Ok hp -> w "proxy_type" = Ok wp ->
            (obj_eq hp (Some (VStr "explicit")) && obj_eq wp None = true ->
             raises_F5 (Http.Difference.dns_resolver w h))
            /\ (obj_eq hp (Some (VStr "explicit")) && obj_eq wp None = false ->
                Http.Difference.dns_resolver w h = Ok wd))).
Proof.
  unfold Http.Difference.dns_resolver. rewrite Hw. cbn [rbind].
  split; [intros ->; reflexivity|].
  destruct wd as [x|].
  2:{ split; [intros H; contradiction | intros H; discriminate]. }
  rewrite Hh. cbn [rbind]. split.
  - intros _ E. rewrite E. now destruct hd.
  - intros E. rewrite E. split.
    + intros E2. now rewrite E2.
    + intros E2 hp wp Hhp Hwp. rewrite E2, Hhp. cbn [rbind].
      destruct (obj_eq hp (Some (VStr "explicit"))) eqn:E3; cbn [andb].
      * rewrite Hwp. cbn [rbind].
        destruct (obj_eq wp None); split; intros H; try discriminate.
        -- now eexists.
        -- destruct hd; [reflexivity | discriminate].
      * cbn [rbind]. split; [discriminate|]. intros _.
        destruct hd; [reflexivity | discriminate].
Qed.

Lemma resolver_difference_witness :
  Http.Difference.dns_resolver
    (view_of [("dns_resolver", VStr "/Common/new")])
    (view_of [("dns_resolver", VStr "/Common/old")])
  = Ok None.
Proof.
  pose proof (resolver_difference
                (view_of [("dns_resolver", VStr "/Common/new")])
                (view_of [("dns_resolver", VStr "/Common/old")])
                (Some (VStr "/Common/new")) (Some (VStr "/Common/old"))
                eq_refl eq_refl) as (_ & H & _).
  apply H; [discriminate | reflexivity].
Defined.

(** X10.  Cookies to encrypt.  [ModuleParameters.encrypt_cookies] turns
    the two spellings of removal, [''] and ['none'], into the empty list.
    Against a device without cookies ([None] or the empty list) the empty
    list is no change and any other list is a change; against a device
    with cookies the lists are compared as sets, so order and repetition
    never make a change, and the empty list is one. *)
Theorem cookies_are_compared_as_sets (w h : view) (wl hl : list string)
    (Hw : w "encrypt_cookies" = Ok (Some (VList wl))) :
  (HttpParams.encrypt_cookies (Some [""]) = Some []
   /\ HttpParams.encrypt_cookies (Some ["none"]) = Some []
   /\ HttpParams.encrypt_cookies None = None)
  /\ (h "encrypt_cookies" = Ok None \/ h "encrypt_cookies" = Ok (Some (VList [])) ->
      Http.Difference.encrypt_cookies w h
      = Ok (match wl with [] => None | _ => Some (VList wl) end))
  /\ (hl <> [] -> h "encrypt_cookies" = Ok (Some (VList hl)) ->
      Http.Difference.encrypt_cookies w h
      = Ok (if set_eq wl hl then None else Some (VList wl)))
  /\ (hl <> [] -> h "encrypt_cookies" = Ok (Some (VList hl)) ->
      Http.Difference.encrypt_cookies
        (fun k => if String.eqb k "encrypt_cookies"
                  then Ok (option_map VList (HttpParams.encrypt_cookies (Some ["none"])))
                  else w k) h
      = Ok (Some (VList []))).
Proof.
  assert (Hset : forall w' wl', w' "encrypt_cookies" = Ok (Some (VList wl')) ->
            hl <> [] -> h "encrypt_cookies" = Ok (Some (VList hl)) ->
            Http.Difference.encrypt_cookies w' h
            = Ok (if set_eq wl' hl then None else Some (VList wl'))).
  { intros w' wl' Hw' Hne Hh. unfold Http.Difference.encrypt_cookies.
    rewrite Hw', Hh. cbn [rbind py_eq Http.py_set].
    destruct hl as [|a r]; [contradiction|]. cbn [list_eqb].
    now destruct (set_eq wl' (a :: r)). }
  split; [repeat split|]. split; [|split].
  - unfold Http.Difference.encrypt_cookies. rewrite Hw. cbn [rbind].
    intros [Hh|Hh]; rewrite Hh; cbn [rbind py_eq list_eqb truthy];
      now destruct wl.
  - now apply Hset.
  - intros Hne Hh. rewrite (Hset _ []); [|reflexivity|assumption|assumption].
    destruct hl; [contradiction | reflexivity].
Qed.

Lemma cookies_are_compared_as_sets_witness :
  Http.Difference.encrypt_cookies
    (view_of [("encrypt_cookies", VList ["b"; "a"; "b"])])
    (view_of [("encrypt_cookies", VList ["a"; "b"])])
  = Ok None.
Proof.
  pose proof (cookies_are_compared_as_sets
                (view_of [("encrypt_cookies", VList ["b"; "a"; "b"])])
                (view_of [("encrypt_cookies", VList ["a"; "b"])])
                ["b"; "a"; "b"] ["a"; "b"] eq_refl) as (_ & _ & H & _).
  apply H; [discriminate | reflexivity].
Defined.

(** X11.  The cookie secret is a change only under
    [update_password: always]: with any other setting no secret is ever
    sent, and with 'always' the desired secret is a change exactly when it
    differs from what the device reports. *)
Theorem secret_follows_update_password (w h : view) (ws hs up : pyobj)
    (Hw : w "encrypt_cookie_secret" = Ok ws)
    (Hh : h "encrypt_cookie_secret" = Ok hs)
    (Hup : w "update_password" = Ok up) :
  (obj_eq up (Some (VStr "always")) = false ->
   Http.Difference.encrypt_cookie_secret w h = Ok None)
  /\ (obj_eq up (Some (VStr "always")) = true ->
      Http.Difference.encrypt_cookie_secret w h
      = Ok (if obj_eq ws hs then None else ws)).
Proof.
  unfold Http.Difference.encrypt_cookie_secret.
  rewrite Hw, Hh. cbn [rbind].
  destruct (obj_eq ws hs); cbn [negb]; [split; reflexivity|].
  rewrite Hup. cbn [rbind]. split; intros ->; reflexivity.
Qed.

Lemma secret_follows_update_password_witness :
  Http.Difference.encrypt_cookie_secret
    (view_of [("encrypt_cookie_secret", VStr "s3cret");
              ("update_password", VStr "on_create")])
    (view_of [])
  = Ok None.
Proof.
  pose proof (secret_follows_update_password
                (view_of [("encrypt_cookie_secret", VStr "s3cret");
                          ("update_password", VStr "on_create")])
                (view_of []) (Some (VStr "s3cret")) None
                (Some (VStr "on_create")) eq_refl eq_refl eq_refl) as [H _].
  apply H. reflexivity.
Defined.

(* ===================================================================== *)
(** * What the manager's loops collect *)
(* ===================================================================== *)

Lemma update_loop_collect properties (w h : view) (keys : list string) :
  forall changed,
    update_loop properties w h keys changed
    = collect (Difference_compare properties w h) keys changed.
Proof.
  induction keys as [|k rest IH]; intros changed; simpl; [reflexivity|].
  destruct (Difference_compare properties w h k) as [[c|]|e]; simpl; auto.
Qed.

Lemma set_loop_collect (w : view) (keys : list string) :
  forall changed, set_loop w keys changed = collect w keys changed.
Proof.
  induction keys as [|k rest IH]; intros changed; simpl; [reflexivity|].
  destruct (w k) as [[c|]|e]; simpl; auto.
Qed.

Lemma dict_get_set_other (k k0 : string) (v : pyval) (d : dict) :
  k <> k0 -> dict_get k (dict_set k0 v d) = dict_get k d.
Proof.
  intros Hne. induction d as [|[k' v'] r IH]; simpl.
  - apply String.eqb_neq in Hne. now rewrite Hne.
  - destruct (String.eqb k0 k') eqn:E; simpl.
    + apply String.eqb_eq in E. subst k'.
      apply String.eqb_neq in Hne. now rewrite Hne.
    + destruct (String.eqb k k'); auto.
Qed.

Lemma collect_lookup (f : string -> result pyobj) (keys : list string) :
  forall changed d,
    collect f keys changed = Ok d ->
    forall k,
      (In k keys ->
       exists r, f k = Ok r
                 /\ dict_get k d = match r with
                                   | Some c => Some c
                                   | None => dict_get k changed
                                   end)
      /\ (~ In k keys -> dict_get k d = dict_get k changed).
Proof.
  induction keys as [|k0 rest IH]; intros changed d Hd k.
  - simpl in Hd. injection Hd as <-. split; [intros [] | reflexivity].
  - simpl in Hd. destruct (f k0) as [[c|]|e] eqn:E0; [| |discriminate].
    + destruct (IH _ _ Hd k) as [Hin Hout]. split.
      * intros Hk. destruct (in_dec string_dec k rest) as [Hr|Hr].
        -- destruct (Hin Hr) as (r & Hf & Hg). exists r. split; [assumption|].
           rewrite Hg. destruct r; [reflexivity|].
           apply dict_get_set_other. intros ->. congruence.
        -- destruct Hk as [<-|Hk]; [|contradiction].
           exists (Some c). split; [assumption|].
           rewrite (Hout Hr). apply dict_get_set.
      * intros Hk. rewrite Hout by (intros H; apply Hk; now right).
        apply dict_get_set_other. intros ->. apply Hk. now left.
    + destruct (IH _ _ Hd k) as [Hin Hout]. split.
      * intros Hk. destruct (in_dec string_dec k rest) as [Hr|Hr].
        -- now apply Hin.
        -- destruct Hk as [<-|Hk]; [|contradiction].
           exists None. split; [assumption | now apply Hout].
      * intros Hk. apply Hout. intros H. apply Hk. now right.
Qed.

(** X12.  When the loop of [_update_changed_options] returns, the
    collected changes hold, under each updatable field, exactly what
    [Difference.compare] found for it (nothing when it found no change),
    and hold nothing under any other key; [compare] raised for no field. *)
Theorem changes_hold_what_compare_found
    (properties : string -> option (view -> view -> result pyobj))
    (w h : view) (keys : list string) (d : dict)
    (Hd : update_loop properties w h keys [] = Ok d) (k : string) :
  (In k keys -> Difference_compare properties w h k = Ok (dict_get k d))
  /\ (~ In k keys -> dict_get k d = None).
Proof.
  rewrite update_loop_collect in Hd.
  destruct (collect_lookup _ _ _ _ Hd k) as [Hin Hout]. split.
  - intros Hk. destruct (Hin Hk) as (r & Hf & Hg).
    rewrite Hf, Hg. now destruct r.
  - exact Hout.
Qed.

Lemma changes_hold_what_compare_found_witness :
  Difference_compare Tcp.Difference.properties want_nagle
    (Tcp.ApiParameters no_body) "nagle"
  = Ok (dict_get "nagle" [("nagle", VStr "enabled")])
  /\ dict_get "parent" [("nagle", VStr "enabled")] = None.
Proof.
  split.
  - apply (changes_hold_what_compare_found Tcp.Difference.properties
             want_nagle (Tcp.ApiParameters no_body) Tcp.updatables
             [("nagle", VStr "enabled")] eq_refl "nagle").
    simpl. tauto.
  - apply (changes_hold_what_compare_found Tcp.Difference.properties
             want_nagle (Tcp.ApiParameters no_body) ["nagle"]
             [("nagle", VStr "enabled")] eq_refl "parent").
    simpl. intros [H|[]]. discriminate.
Defined.

(** X13.  When the loop of [_set_changed_options] returns, the collected
    dictionary holds under each returnable exactly the desired value of
    that field (nothing for [None]) and nothing under any other key; when
    every desired value is [None] the manager's changes are left as they
    were, and no call is made. *)
Theorem created_changes_are_the_desired_values (device : Type)
    (returnables : list string) (w : view) (d : dict)
    (Hd : set_loop w returnables [] = Ok d) (k : string) :
  (In k returnables -> w k = Ok (dict_get k d))
  /\ (~ In k returnables -> dict_get k d = None)
  /\ (forall self : manager device,
        want self = w ->
        exists self',
          _set_changed_options device returnables self = (Ok tt, self')
          /\ log self' = log self
          /\ changes self' = match d with [] => changes self | _ => d end).
Proof.
  pose proof Hd as Hc. rewrite set_loop_collect in Hc.
  destruct (collect_lookup _ _ _ _ Hc k) as [Hin Hout]. split; [|split].
  - intros Hk. destruct (Hin Hk) as (r & Hf & Hg).
    rewrite Hf, Hg. now destruct r.
  - exact Hout.
  - intros self Hw. unfold _set_changed_options, bind, get_want, lift.
    rewrite Hw, Hd. destruct d; eexists; (split; [reflexivity|]); now split.
Qed.

Lemma created_changes_are_the_desired_values_witness :
  want_nagle "nagle" = Ok (dict_get "nagle" [("nagle", VStr "enabled")])
  /\ dict_get "name" [("nagle", VStr "enabled")] = None.
Proof.
  split.
  - apply (created_changes_are_the_desired_values unit Tcp.returnables
             want_nagle [("nagle", VStr "enabled")] eq_refl "nagle").
    simpl. tauto.
  - apply (created_changes_are_the_desired_values unit Tcp.returnables
             want_nagle [("nagle", VStr "enabled")] eq_refl "name").
    simpl. intros H.
    repeat (destruct H as [H|H]; [discriminate|]). contradiction.
Defined.

Lemma default_carries_want (w h : view) (k : string) (c : pyval) :
  Difference_default w h k = Ok (Some c) -> w k = Ok (Some c).
Proof.
  unfold Difference_default. destruct (w k) as [a|e]; cbn [rbind];
    [|discriminate].
  destruct (h k) as [b|[]]; try discriminate.
  - destruct (negb (obj_eq a b)); [now intros [= ->] | discriminate].
  - now intros [= ->].
Qed.

Ltac split_result :=
  repeat match goal with
         | |- context [match ?x with _ => _ end] => destruct x eqn:?
         | |- context [if ?x then _ else _] => destruct x eqn:?
         end.

Lemma http_property_carries_want (cmp : pyobj -> pyobj -> result pyobj)
    (k : string) (property : view -> view -> result pyobj) :
  Http.Difference.properties cmp k = Some property ->
  mem k simple_lists = false ->
  forall w h c, property w h = Ok (Some c) -> w k = Ok (Some c).
Proof.
  unfold Http.Difference.properties, simple_lists, mem. cbn [existsb].
  intros Hp Hs w h c.
  repeat (apply orb_false_elim in Hs; destruct Hs as [?E Hs]).
  rewrite E, E0, E1 in Hp.
  repeat match type of Hp with
         | (if String.eqb k ?n then _ else _) = _ =>
             destruct (String.eqb_spec k n) as [->|_]
         end; try discriminate; injection Hp as <-.
  - unfold Http.Difference.parent, rbind. split_result; discriminate.
  - unfold Http.Difference.dns_resolver, rbind.
    split_result; try discriminate; intros [= <-]; reflexivity.
  - unfold Http.Difference.header_erase, Http.Difference.none_or_empty, rbind.
    split_result; try discriminate; intros [= <-]; reflexivity.
  - unfold Http.Difference.header_insert, Http.Difference.none_or_empty, rbind.
    split_result; try discriminate; intros [= <-]; reflexivity.
  - unfold Http.Difference.server_agent_name, Http.Difference.none_or_empty,
      rbind.
    split_result; try discriminate; intros [= <-]; reflexivity.
  - unfold Http.Difference.encrypt_cookies, rbind.
    split_result; try discriminate; intros [= <-]; reflexivity.
  - unfold Http.Difference.encrypt_cookie_secret, rbind.
    split_result; try discriminate; intros [= <-]; reflexivity.
Qed.

Lemma compare_carries_want
    (properties : string -> option (view -> view -> result pyobj))
    (w h : view) (k : string) (c : pyval) :
  (forall property, properties k = Some property ->
                    property w h = Ok (Some c) -> w k = Ok (Some c)) ->
  Difference_compare properties w h k = Ok (Some c) -> w k = Ok (Some c).
Proof.
  intros Hprop. unfold Difference_compare.
  destruct (properties k) as [property|]; [|apply default_carries_want].
  specialize (Hprop property eq_refl).
  destruct (property w h) as [r|[]]; try discriminate.
  - intros [= ->]. now apply Hprop.
  - apply default_carries_want.
Qed.

(** X14.  An update never sends a value the task did not ask for: every
    entry of the collected changes sits under an updatable field, and its
    value is the desired value of that field.  This holds for every field
    of the TCP module, and for every field of the HTTP module that is not
    compared with [cmp_simple_list]. *)
Theorem changes_carry_desired_values (cmp : pyobj -> pyobj -> result pyobj)
    (w h : view) (d : dict) (k : string) (v : pyval)
    (Hk : dict_get k d = Some v) :
  (update_loop (Http.Difference.properties cmp) w h Http.updatables [] = Ok d ->
   In k Http.updatables
   /\ (mem k simple_lists = false -> w k = Ok (Some v)))
  /\ (update_loop Tcp.Difference.properties w h Tcp.updatables [] = Ok d ->
      In k Tcp.updatables /\ w k = Ok (Some v)).
Proof.
  assert (Hgen : forall properties keys,
            update_loop properties w h keys [] = Ok d ->
            In k keys /\ Difference_compare properties w h k = Ok (Some v)).
  { intros properties keys Hd. rewrite update_loop_collect in Hd.
    destruct (collect_lookup _ _ _ _ Hd k) as [Hin Hout].
    destruct (in_dec string_dec k keys) as [Hi|Hi].
    - split; [assumption|]. destruct (Hin Hi) as (r & Hf & Hg).
      rewrite Hk in Hg. rewrite Hf.
      destruct r; simpl in Hg; [injection Hg as ->; reflexivity | discriminate].
    - rewrite (Hout Hi) in Hk. discriminate. }
  split; intros Hd; destruct (Hgen _ _ Hd) as [Hi Hc]; split; try assumption.
  - intros Hs. apply (compare_carries_want _ _ _ _ _ (fun property Hp =>
      http_property_carries_want cmp k property Hp Hs w h v) Hc).
  - refine (compare_carries_want _ _ _ _ _ _ Hc).
    intros property Hp. discriminate.
Qed.

Lemma changes_carry_desired_values_witness :
  In "nagle" Tcp.updatables /\ want_nagle "nagle" = Ok (Some (VStr "enabled")).
Proof.
  apply (changes_carry_desired_values no_simple_list want_nagle
           (Tcp.ApiParameters no_body) [("nagle", VStr "enabled")]
           "nagle" (VStr "enabled") eq_refl).
  reflexivity.
Defined.

(* ===================================================================== *)
(** * The calls one run makes *)
(* ===================================================================== *)

Section TraceFacts.

Variable device : Type.
Variable api : request -> device -> response * device.
Variable ApiParameters : jbody -> view.
Variable api_params : dict -> result dict.
Variable reportable : dict -> dict.
Variable kind : string.
Variable updatables returnables : list string.
Variable properties : string -> option (view -> view -> result pyobj).
Variable create_defaults : view -> result view.
Variable name partition state : string.
Variable check_mode : bool.

Lemma verbs_added_refl (self : manager device) : verbs_added self self [].
Proof. exists []. split; [now rewrite app_nil_r | reflexivity]. Qed.

Lemma verbs_added_trans (a b c : manager device) (v1 v2 : list verb) :
  verbs_added a b v1 -> verbs_added b c v2 -> verbs_added a c (v1 ++ v2).
Proof.
  intros (l1 & H1 & M1) (l2 & H2 & M2). exists (l1 ++ l2)%list. split.
  - now rewrite H2, H1, app_assoc.
  - now rewrite map_app, M1, M2.
Qed.

Lemma bind_inv {A B} (c : M device A) (k : A -> M device B)
    (self self' : manager device) (r : result B) :
  bind device c k self = (r, self') ->
  (exists a s1, c self = (Ok a, s1) /\ k a s1 = (r, self'))
  \/ (exists e, c self = (Raise e, self') /\ r = Raise e).
Proof.
  unfold bind. destruct (c self) as [[a|e] s1].
  - intros H. left. now exists a, s1.
  - intros [= <- <-]. right. now exists e.
Qed.

Lemma call_verbs (v : verb) (u : uri) (body : option dict)
    (self self' : manager device) (r : result response) :
  call device api v u body self = (r, self') ->
  verbs_added self self' [v] /\ exists resp, r = Ok resp.
Proof.
  unfold call. destruct (api _ (dev self)) as [resp d].
  intros [= <- <-]. split; [|now exists resp].
  eexists. split; [reflexivity|]. reflexivity.
Qed.

Lemma pure_verbs {A} (x : result A) (self self' : manager device)
    (r : result A) :
  lift device x self = (r, self') -> verbs_added self self' [].
Proof. intros [= _ <-]. apply verbs_added_refl. Qed.

Lemma exists_verbs (self self' : manager device) (r : result bool) :
  exists_ device api kind name partition self = (r, self') ->
  verbs_added self self' [GET] /\ exists b, r = Ok b.
Proof.
  unfold exists_. intros H. apply bind_inv in H.
  destruct H as [(resp & s1 & Hc & Hk)|(e & Hc & _)].
  - apply call_verbs in Hc. destruct Hc as [Hv _].
    assert (s1 = self' /\ exists b, r = Ok b) as [-> Hb].
    { destruct (json resp) as [ex|body];
        [|destruct ((status resp =? 404) || code_in body [404])];
        injection Hk as <- <-; split; eauto. }
    now split.
  - apply call_verbs in Hc. destruct Hc as [_ [resp Hr]]. discriminate.
Qed.

Ltac step H :=
  apply bind_inv in H;
  destruct H as [(?a & ?s & ?Hc & H)|(?e & ?Hc & ?Hr)].

Lemma read_verbs (self self' : manager device) (r : result view) :
  read_current_from_device device api ApiParameters kind name partition self
  = (r, self') ->
  verbs_added self self' [GET].
Proof.
  unfold read_current_from_device. intros H. step H.
  - apply call_verbs in Hc. destruct Hc as [Hv _].
    assert (s = self') as ->; [|assumption].
    destruct (json a); unfold throw, lift in H; now injection H.
  - apply call_verbs in Hc. destruct Hc as [_ [resp Hx]]. discriminate.
Qed.

Lemma write_verbs {A} (v : verb) (u : uri) (wrap : dict -> dict)
    (k : response -> M device A)
    (Hk : forall resp s r s', k resp s = (r, s') -> s' = s)
    (self self' : manager device) (r : result A) :
  bind device (get_changes device)
    (fun c => bind device (lift device (api_params c))
       (fun params => bind device (call device api v u (Some (wrap params))) k))
    self = (r, self') ->
  verbs_added self self' [] \/ verbs_added self self' [v].
Proof.
  intros H. step H; [|discriminate]. injection Hc as <- <-.
  step H.
  - injection Hc as _ <-. step H.
    + apply call_verbs in Hc. destruct Hc as [Hv _].
      apply Hk in H. subst. now right.
    + apply call_verbs in Hc. destruct Hc as [_ [resp Hx]]. discriminate.
  - injection Hc as _ <-. left. apply verbs_added_refl.
Qed.

Lemma create_on_device_verbs (self self' : manager device) (r : result pyval) :
  create_on_device device api api_params kind name partition self = (r, self') ->
  verbs_added self self' [] \/ verbs_added self self' [POST].
Proof.
  unfold create_on_device.
  apply (write_verbs POST (Collection kind)
           (fun params => dict_set "partition" (VStr partition)
                            (dict_set "name" (VStr name) params))).
  intros resp s r0 s'. destruct (json resp); unfold throw, lift; now intros [= _ <-].
Qed.

Lemma update_on_device_verbs (self self' : manager device) (r : result unit) :
  update_on_device device api api_params kind name partition self = (r, self') ->
  verbs_added self self' [] \/ verbs_added self self' [PATCH].
Proof.
  unfold update_on_device.
  apply (write_verbs PATCH (Item kind partition name) (fun params => params)).
  intros resp s r0 s'. destruct (json resp); unfold throw, lift; now intros [= _ <-].
Qed.

Lemma remove_from_device_verbs (self self' : manager device) (r : result bool) :
  remove_from_device device api kind name partition self = (r, self') ->
  verbs_added self self' [DELETE].
Proof.
  unfold remove_from_device. intros H. step H.
  - apply call_verbs in Hc. destruct Hc as [Hv _].
    assert (s = self') as ->; [|assumption].
    destruct (status a =? 200); unfold ret, throw in H; now injection H.
  - apply call_verbs in Hc. destruct Hc as [_ [resp Hx]]. discriminate.
Qed.

Lemma same_log_verbs (self self' : manager device) :
  log self' = log self -> verbs_added self self' [].
Proof. intros H. exists []. split; [now rewrite app_nil_r | reflexivity]. Qed.

Lemma should_update_verbs (self self' : manager device) (r : result bool) :
  should_update device updatables properties self = (r, self') ->
  verbs_added self self' [].
Proof.
  unfold should_update, _update_changed_options, bind, get_want, get_have,
    lift, set_changes, ret.
  destruct (update_loop properties (want self) (have self) updatables [])
    as [[|kv d]|e]; intros [= _ <-]; now apply same_log_verbs.
Qed.

Lemma set_changed_verbs (self self' : manager device) (r : result unit) :
  _set_changed_options device returnables self = (r, self') ->
  verbs_added self self' [].
Proof.
  unfold _set_changed_options, bind, get_want, lift, set_changes, ret.
  destruct (set_loop (want self) returnables []) as [[|kv d]|e];
    intros [= _ <-]; now apply same_log_verbs.
Qed.

Lemma update_verbs (self self' : manager device) (r : result bool) :
  update device api ApiParameters api_params kind updatables properties
    name partition check_mode self = (r, self') ->
  (verbs_added self self' [GET] \/ verbs_added self self' [GET; PATCH])
  /\ (check_mode = true -> verbs_added self self' [GET]).
Proof.
  unfold update. intros H. step H.
  2:{ apply read_verbs in Hc. now split; [left|]. }
  apply read_verbs in Hc. step H; [|discriminate].
  injection Hc0 as _ <-. step H.
  2:{ apply should_update_verbs in Hc0.
      pose proof (verbs_added_trans _ _ _ _ _ Hc
                    (verbs_added_trans _ _ _ _ _
                       (same_log_verbs s _ eq_refl) Hc0)) as Hv.
      now split; [left|]. }
  apply should_update_verbs in Hc0.
  pose proof (verbs_added_trans _ _ _ _ _ Hc
                (verbs_added_trans _ _ _ _ _
                   (same_log_verbs s _ eq_refl) Hc0)) as Hv.
  cbn [app] in Hv.
  destruct (negb a1); [injection H as _ <-; now split; [left|]|].
  destruct check_mode; [injection H as _ <-; now split; [left|]|].
  split; [|discriminate]. step H.
  - injection H as _ <-. apply update_on_device_verbs in Hc1.
    destruct Hc1 as [Hu|Hu];
      pose proof (verbs_added_trans _ _ _ _ _ Hv Hu); [now left | now right].
  - apply update_on_device_verbs in Hc1.
    destruct Hc1 as [Hu|Hu];
      pose proof (verbs_added_trans _ _ _ _ _ Hv Hu); [now left | now right].
Qed.

Lemma create_verbs (self self' : manager device) (r : result bool) :
  create device api api_params kind returnables create_defaults name partition
    check_mode self = (r, self') ->
  (verbs_added self self' [] \/ verbs_added self self' [POST])
  /\ (check_mode = true -> verbs_added self self' []).
Proof.
  unfold create. intros H. step H; [|discriminate]. injection Hc as _ <-.
  step H.
  2:{ injection Hc as _ <-. split; [left|intros _]; apply verbs_added_refl. }
  injection Hc as _ <-. step H; [|discriminate]. injection Hc as _ <-.
  step H.
  2:{ apply set_changed_verbs in Hc.
      pose proof (verbs_added_trans _ _ _ _ _
                    (same_log_verbs self _ eq_refl) Hc) as Hv.
      now split; [left|]. }
  apply set_changed_verbs in Hc.
  pose proof (verbs_added_trans _ _ _ _ _
                (same_log_verbs self _ eq_refl) Hc) as Hv.
  cbn [app] in Hv.
  destruct check_mode; [injection H as _ <-; now split; [left|]|].
  split; [|discriminate]. step H.
  - injection H as _ <-. apply create_on_device_verbs in Hc0.
    destruct Hc0 as [Hu|Hu];
      pose proof (verbs_added_trans _ _ _ _ _ Hv Hu); [now left | now right].
  - apply create_on_device_verbs in Hc0.
    destruct Hc0 as [Hu|Hu];
      pose proof (verbs_added_trans _ _ _ _ _ Hv Hu); [now left | now right].
Qed.

Lemma remove_verbs (self self' : manager device) (r : result bool) :
  remove device api kind name partition check_mode self = (r, self') ->
  (verbs_added self self' [] \/ verbs_added self self' [DELETE]
   \/ verbs_added self self' [DELETE; GET])
  /\ (check_mode = true -> verbs_added self self' []).
Proof.
  unfold remove.
  destruct check_mode.
  - intros [= _ <-]. split; [left|intros _]; apply verbs_added_refl.
  - intros H. split; [|discriminate]. step H.
    + apply remove_from_device_verbs in Hc. step H.
      * apply exists_verbs in Hc0. destruct Hc0 as [Hg _].
        pose proof (verbs_added_trans _ _ _ _ _ Hc Hg) as Hv.
        destruct a0; unfold throw, ret in H; injection H as _ <-;
          right; now right.
      * apply exists_verbs in Hc0. destruct Hc0 as [_ [b Hb]]. discriminate.
    + apply remove_from_device_verbs in Hc. right. now left.
Qed.

Lemma present_verbs (self self' : manager device) (r : result bool) :
  present device api ApiParameters api_params kind updatables returnables
    properties create_defaults name partition check_mode self = (r, self') ->
  exists vs,
    verbs_added self self' vs
    /\ In vs [ [GET]; [GET; GET]; [GET; GET; PATCH]; [GET; POST] ]
    /\ (check_mode = true -> In vs [ [GET]; [GET; GET] ]).
Proof.
  unfold present. intros H. step H.
  2:{ apply exists_verbs in Hc. destruct Hc as [_ [b Hb]]. discriminate. }
  apply exists_verbs in Hc. destruct Hc as [Hg _]. destruct a.
  - apply update_verbs in H. destruct H as [[Hu|Hu] Hcheck].
    + exists [GET; GET]. split; [apply (verbs_added_trans _ _ _ _ _ Hg Hu)|].
      simpl. tauto.
    + exists [GET; GET; PATCH].
      split; [apply (verbs_added_trans _ _ _ _ _ Hg Hu)|].
      split; [simpl; tauto|]. intros Hm. specialize (Hcheck Hm).
      destruct Hu as (l1 & E1 & M1), Hcheck as (l2 & E2 & M2).
      rewrite E1 in E2. apply app_inv_head in E2. subst l2.
      rewrite M1 in M2. discriminate.
  - apply create_verbs in H. destruct H as [[Hu|Hu] Hcheck].
    + exists [GET]. split; [apply (verbs_added_trans _ _ _ _ _ Hg Hu)|].
      simpl. tauto.
    + exists [GET; POST].
      split; [apply (verbs_added_trans _ _ _ _ _ Hg Hu)|].
      split; [simpl; tauto|]. intros Hm. specialize (Hcheck Hm).
      destruct Hu as (l1 & E1 & M1), Hcheck as (l2 & E2 & M2).
      rewrite E1 in E2. apply app_inv_head in E2. subst l2.
      rewrite M1 in M2. discriminate.
Qed.

Lemma absent_verbs (self self' : manager device) (r : result bool) :
  absent device api kind name partition check_mode self = (r, self') ->
  exists vs,
    verbs_added self self' vs
    /\ In vs [ [GET]; [GET; DELETE]; [GET; DELETE; GET] ]
    /\ (check_mode = true -> vs = [GET]).
Proof.
  unfold absent. intros H. step H.
  2:{ apply exists_verbs in Hc. destruct Hc as [_ [b Hb]]. discriminate. }
  apply exists_verbs in Hc. destruct Hc as [Hg _]. destruct a.
  - apply remove_verbs in H. destruct H as [[Hu|[Hu|Hu]] Hcheck].
    + exists [GET]. split; [apply (verbs_added_trans _ _ _ _ _ Hg Hu)|].
      simpl. tauto.
    + exists [GET; DELETE].
      split; [apply (verbs_added_trans _ _ _ _ _ Hg Hu)|].
      split; [simpl; tauto|]. intros Hm. specialize (Hcheck Hm).
      destruct Hu as (l1 & E1 & M1), Hcheck as (l2 & E2 & M2).
      rewrite E1 in E2. apply app_inv_head in E2. subst l2.
      rewrite M1 in M2. discriminate.
    + exists [GET; DELETE; GET].
      split; [apply (verbs_added_trans _ _ _ _ _ Hg Hu)|].
      split; [simpl; tauto|]. intros Hm. specialize (Hcheck Hm).
      destruct Hu as (l1 & E1 & M1), Hcheck as (l2 & E2 & M2).
      rewrite E1 in E2. apply app_inv_head in E2. subst l2.
      rewrite M1 in M2. discriminate.
  - injection H as _ <-. exists [GET].
    split; [apply (verbs_added_trans _ _ _ _ _ Hg (verbs_added_refl _))|].
    simpl. tauto.
Qed.

(** X15.  Whatever the device answers and whatever is raised on the way,
    one run of [exec_module] makes one of seven sequences of calls: none;
    GET; GET GET; GET GET PATCH; GET POST; GET DELETE; GET DELETE GET.  So
    it writes at most once and never repeats a write; in check mode it only
    reads; a run for state present never deletes and a run for state absent
    never creates or updates. *)
Theorem calls_of_exec_module (self self' : manager device) (r : result dict)
    (Hrun : exec_module device api ApiParameters api_params reportable kind
              updatables returnables properties create_defaults name
              partition state check_mode self = (r, self')) :
  exists vs,
    verbs_added self self' vs
    /\ In vs [ []; [GET]; [GET; GET]; [GET; GET; PATCH]; [GET; POST];
               [GET; DELETE]; [GET; DELETE; GET] ]
    /\ (check_mode = true -> In vs [ []; [GET]; [GET; GET] ])
    /\ (state = "present" -> ~ In DELETE vs)
    /\ (state = "absent" -> ~ In POST vs /\ ~ In PATCH vs).
Proof.
  unfold exec_module in Hrun.
  assert (Hcore : exists rc,
            (if String.eqb state "present"
             then present device api ApiParameters api_params kind updatables
                    returnables properties create_defaults name partition
                    check_mode
             else if String.eqb state "absent"
                  then absent device api kind name partition check_mode
                  else ret device false) self = (rc, self')).
  { step Hrun.
    - step Hrun; [|discriminate]. injection Hc0 as _ <-.
      injection Hrun as _ <-. now exists (Ok a).
    - now exists (Raise e). }
  clear Hrun. destruct Hcore as [rc Hcore].
  destruct (String.eqb_spec state "present") as [Hp|Hp].
  - apply present_verbs in Hcore. destruct Hcore as (vs & Hv & Hin & Hcheck).
    exists vs. split; [assumption|]. simpl in Hin.
    split; [simpl; tauto|]. split; [intros Hm; specialize (Hcheck Hm); simpl in *; tauto|].
    split.
    + intros _ HD. destruct Hin as [<-|[<-|[<-|[<-|[]]]]]; simpl in HD;
        intuition discriminate.
    + intros Ha. rewrite Hp in Ha. discriminate.
  - destruct (String.eqb_spec state "absent") as [Ha|Ha].
    + apply absent_verbs in Hcore. destruct Hcore as (vs & Hv & Hin & Hcheck).
      exists vs. split; [assumption|]. simpl in Hin.
      split; [simpl; tauto|].
      split; [intros Hm; rewrite (Hcheck Hm); simpl; tauto|].
      split; [intros Hx; contradiction|].
      intros _. destruct Hin as [<-|[<-|[<-|[]]]]; simpl;
        split; intuition discriminate.
    + injection Hcore as _ <-. exists []. split; [apply verbs_added_refl|].
      split; [simpl; tauto|]. split; [simpl; tauto|].
      split; [intros Hx; contradiction | intros Hx; contradiction].
Qed.

End TraceFacts.

Lemma calls_of_exec_module_witness :
  exists vs,
    verbs_added (Tcp.ModuleManager.init unit Tcp.ApiParameters tt want_nagle)
      (snd (tcp_run want_nagle)) vs
    /\ In vs [ []; [GET]; [GET; GET]; [GET; GET; PATCH]; [GET; POST];
               [GET; DELETE]; [GET; DELETE; GET] ].
Proof.
  destruct (calls_of_exec_module unit tcp_device Tcp.ApiParameters plain_params
              plain_report "tcp" Tcp.updatables Tcp.returnables
              Tcp.Difference.properties
              (Tcp.ModuleManager.create_defaults slash_name "Common")
              "my_profile" "Common" "present" false
              (Tcp.ModuleManager.init unit Tcp.ApiParameters tt want_nagle)
              (snd (tcp_run want_nagle)) (fst (tcp_run want_nagle))
              (surjective_pairing _)) as (vs & Hv & Hin & _).
  exists vs. now split.
Defined.

(* ===================================================================== *)
(** * Outcomes of the single calls *)
(* ===================================================================== *)

Section OutcomeFacts.

Variable device : Type.
Variable api : request -> device -> response * device.
Variable ApiParameters : jbody -> view.
Variable api_params : dict -> result dict.
Variable reportable : dict -> dict.
Variable kind : string.
Variable updatables returnables : list string.
Variable properties : string -> option (view -> view -> result pyobj).
Variable create_defaults : view -> result view.
Variable name partition : string.
Variable check_mode : bool.

(** X16.  [exists] makes exactly one GET and leaves the changes alone.
    It answers [False] when the body cannot be parsed and when the status
    is 404, whatever the body.  Otherwise an object answers [True] exactly
    when it carries no code 404, so that any other error response (a status
    500, say) counts as an existing profile; a body that parses to null, a
    boolean or a number raises [TypeError], and so does a string or a list
    with 'code' in it, while one without answers [True].  [exists] raises
    nothing else, and on a device that answers with objects it is the
    [exists] of the managers, which does not raise. *)
Theorem exists_raises_only_TypeError
    (any : request -> device -> any_response * device)
    (self : manager device) :
  let rq := {| req_verb := GET; req_uri := Item kind partition name;
               req_json := None |} in
  let resp := fst (any rq (dev self)) in
  (exists r self',
     exists_any device any kind name partition self = (r, self')
     /\ log self' = (log self ++ [rq])%list
     /\ changes self' = changes self
     /\ (r = Ok true \/ r = Ok false \/ r = Raise TypeError)
     /\ (forall ex, any_json resp = inl ex -> r = Ok false)
     /\ (any_status resp = 404 -> r = Ok false)
     /\ (any_status resp <> 404 ->
         forall v, any_json resp = inr v ->
           r = match v with
               | JObject o => Ok (negb (code_in o [404]))
               | JNull | JBool _ | JNumber _ => Raise TypeError
               | JString s =>
                   if Bigiq.contains "code" s then Raise TypeError
                   else Ok true
               | JArray items =>
                   if existsb (is_word "code") items then Raise TypeError
                   else Ok true
               end))
  /\ exists_any device (any_api api) kind name partition self
     = exists_ device api kind name partition self
  /\ (exists b, fst (exists_ device api kind name partition self) = Ok b).
Proof.
  intros rq resp. split; [|split].
  - unfold exists_any. fold rq. unfold resp.
    destruct (any rq (dev self)) as [rs d]. cbn [fst].
    eexists _, _. split; [reflexivity|].
    split; [reflexivity|]. split; [reflexivity|].
    destruct (any_json rs) as [ex|v].
    + split; [auto|]. split; [reflexivity|]. split; [reflexivity|].
      intros _ v Hv. discriminate.
    + destruct (Z.eqb_spec (any_status rs) 404) as [Es|Es].
      * split; [auto|]. split; [discriminate|]. split; [reflexivity|].
        intros Hs. contradiction.
      * assert (Hshape :
          (let? found := code_404 v in
           if found then Ok false else Ok true)%res
          = match v with
            | JObject o => Ok (negb (code_in o [404]))
            | JNull | JBool _ | JNumber _ => Raise TypeError
            | JString s =>
                if Bigiq.contains "code" s then Raise TypeError else Ok true
            | JArray items =>
                if existsb (is_word "code") items then Raise TypeError
                else Ok true
            end).
        { destruct v as [o| | | |s|items]; cbn [code_404 rbind];
            try reflexivity.
          - now destruct (code_in o [404]).
          - now destruct (Bigiq.contains "code" s).
          - now destruct (existsb (is_word "code") items). }
        rewrite Hshape. split; [|split; [discriminate|split]].
        -- destruct v as [o| | | |s|items]; auto.
           ++ destruct (code_in o [404]); auto.
           ++ destruct (Bigiq.contains "code" s); auto.
           ++ destruct (existsb (is_word "code") items); auto.
        -- intros Hs. contradiction.
        -- intros _ v' [= <-]. reflexivity.
  - unfold exists_any, exists_, any_api, bind, call. fold rq.
    destruct (api rq (dev self)) as [rs d].
    unfold any_of; cbn [any_json any_status].
    destruct (json rs) as [ex|o]; [reflexivity|].
    destruct (status rs =? 404); cbn [orb]; [reflexivity|].
    cbn [code_404 rbind]. now destruct (code_in o [404]).
  - unfold exists_, bind, call. fold rq.
    destruct (api rq (dev self)) as [rs d].
    destruct (json rs) as [ex|o]; [now exists false|].
    destruct ((status rs =? 404) || code_in o [404]); eexists; reflexivity.
Qed.


(** X18.  [exec_module] for state absent.  A profile that is not there:
    changed=False after the one GET.  A profile that is there, in check
    mode: changed=True and nothing sent.  Otherwise one DELETE: a status
    other than 200 raises [F5ModuleError] with the raw content; after a
    status 200 the profile is looked up once more, and the run raises
    'Failed to delete the resource.' when it is still found and reports
    changed=True when it is gone. *)
Theorem absent_outcomes (self0 self1 : manager device) (found : bool)
    (Hexists : exists_ device api kind name partition self0 = (Ok found, self1)) :
  let run := exec_module device api ApiParameters api_params reportable kind
               updatables returnables properties create_defaults name
               partition "absent" check_mode self0 in
  let result_ b := dict_pop "__warnings"
                     (dict_set "changed" (VBool b) (reportable (changes self0))) in
  (found = false -> run = (Ok (result_ false), self1))
  /\ (found = true -> check_mode = true -> run = (Ok (result_ true), self1))
  /\ (found = true -> check_mode = false ->
      forall resp self2,
        call device api DELETE (Item kind partition name) None self1
        = (Ok resp, self2) ->
        (status resp <> 200 ->
         run = (Raise (F5ModuleError (VStr (content resp))), self2))
        /\ (status resp = 200 ->
            forall still self3,
              exists_ device api kind name partition self2 = (Ok still, self3) ->
              run = (if still
                     then Raise (F5ModuleError (VStr "Failed to delete the resource."))
                     else Ok (result_ true), self3))).
Proof.
  intros run result_.
  assert (Hc1 : changes self1 = changes self0).
  { apply (exists_frame _ _ _ _ _ _ _ _ Hexists). }
  unfold run, exec_module. cbn [String.eqb Ascii.eqb Bool.eqb].
  unfold absent, bind. rewrite Hexists.
  split; [|split].
  - intros ->. unfold ret, get_changes. now rewrite Hc1.
  - intros -> ->. unfold remove, ret, get_changes. now rewrite Hc1.
  - intros -> -> resp self2 Hdel.
    unfold remove, remove_from_device, bind. rewrite Hdel.
    split.
    + intros Hs. apply Z.eqb_neq in Hs. rewrite Hs. reflexivity.
    + intros Hs still self3 Hex2. rewrite Hs. cbn [Z.eqb Pos.eqb].
      unfold ret at 1. rewrite Hex2.
      assert (Hc3 : changes self3 = changes self0).
      { destruct (exists_frame _ _ _ _ _ _ _ _ Hex2) as (_ & Hc & _).
        rewrite Hc. unfold call in Hdel. destruct (api _ (dev self1)).
        injection Hdel as _ <-. exact Hc1. }
      destruct still; [reflexivity|].
      unfold ret, get_changes. now rewrite Hc3.
Qed.

End OutcomeFacts.

Lemma exists_raises_only_TypeError_witness :
  fst (exists_any unit
         (fun _ d => ({| any_status := 200; any_json := inr JNull |}, d))
         "http" "my_profile" "Common"
         (Http.ModuleManager.init unit Http.ApiParameters tt (view_of [])))
  = Raise TypeError
  /\ fst (exists_any unit
            (fun _ d => ({| any_status := 404; any_json := inr JNull |}, d))
            "http" "my_profile" "Common"
            (Http.ModuleManager.init unit Http.ApiParameters tt (view_of [])))
     = Ok false
  /\ fst (exists_any unit
            (fun _ d => ({| any_status := 200;
                            any_json := inr (JArray [JNumber 5]) |}, d))
            "http" "my_profile" "Common"
            (Http.ModuleManager.init unit Http.ApiParameters tt (view_of [])))
     = Ok true.
Proof.
  pose proof (exists_raises_only_TypeError unit
                (fixed_device (reply 200 [])) "http" "my_profile" "Common"
                (fun _ d => ({| any_status := 200; any_json := inr JNull |}, d))
                (Http.ModuleManager.init unit Http.ApiParameters tt (view_of [])))
    as H1.
  pose proof (exists_raises_only_TypeError unit
                (fixed_device (reply 200 [])) "http" "my_profile" "Common"
                (fun _ d => ({| any_status := 404; any_json := inr JNull |}, d))
                (Http.ModuleManager.init unit Http.ApiParameters tt (view_of [])))
    as H2.
  pose proof (exists_raises_only_TypeError unit
                (fixed_device (reply 200 [])) "http" "my_profile" "Common"
                (fun _ d => ({| any_status := 200;
                                any_json := inr (JArray [JNumber 5]) |}, d))
                (Http.ModuleManager.init unit Http.ApiParameters tt (view_of [])))
    as H3.
  cbv zeta in H1, H2, H3. cbn [fst any_status any_json] in H1, H2, H3.
  destruct H1 as ((r1 & s1 & E1 & _ & _ & _ & _ & _ & V1) & _).
  destruct H2 as ((r2 & s2 & E2 & _ & _ & _ & _ & N2 & _) & _).
  destruct H3 as ((r3 & s3 & E3 & _ & _ & _ & _ & _ & V3) & _).
  rewrite E1, E2, E3. cbn [fst].
  split; [apply (V1 ltac:(discriminate) JNull eq_refl)|].
  split; [apply N2; reflexivity|].
  apply (V3 ltac:(discriminate) (JArray [JNumber 5]) eq_refl).
Defined.



Lemma absent_outcomes_witness :
  fst (exec_module unit (fixed_device (reply 404 [("code", VInt 404)]))
         Tcp.ApiParameters plain_params plain_report "tcp" Tcp.updatables
         Tcp.returnables Tcp.Difference.properties
         (Tcp.ModuleManager.create_defaults slash_name "Common")
         "my_profile" "Common" "absent" false
         (Tcp.ModuleManager.init unit Tcp.ApiParameters tt (view_of [])))
  = Ok [("changed", VBool false)].
Proof.
  pose (self0 := Tcp.ModuleManager.init unit Tcp.ApiParameters tt (view_of [])).
  pose (dev404 := fixed_device (reply 404 [("code", VInt 404)])).
  destruct (absent_outcomes unit dev404 Tcp.ApiParameters plain_params
              plain_report "tcp" Tcp.updatables Tcp.returnables
              Tcp.Difference.properties
              (Tcp.ModuleManager.create_defaults slash_name "Common")
              "my_profile" "Common" false self0
              (snd (exists_ unit dev404 "tcp" "my_profile" "Common" self0))
              false eq_refl) as (H & _).
  fold self0 dev404. rewrite (H eq_refl). reflexivity.
Defined.

(* ===================================================================== *)
(** * The connection adapter on the other connections *)
(* ===================================================================== *)

(** X19.  [run] outside the CLI transport.  On a connection that is neither
    [network_cli] nor a local one asking for [cli] (a provider transport
    left out or empty means rest) it reads no prompt and sends nothing:
    the task is handed on at once, for any number of rounds.  On a
    [network_cli] connection it opens no shell and never fails with
    'Unable to open shell': whenever it hands the task on, the prompts it
    answered with 'exit' contained '(config' and the last one it read does
    not, and the only warning is the one for a provider that is set. *)
Theorem run_on_other_connections (conn : Type)
    (get_prompt : conn -> string * conn)
    (send_command : string -> conn -> conn)
    (rounds : nat) (ctx : Bigiq.context) (c : conn) :
  (Bigiq.pc_connection ctx <> "network_cli" ->
   Bigiq.pc_connection ctx <> "local"
   \/ Bigiq.provider_transport ctx = None
   \/ Bigiq.provider_transport ctx = Some ""
   \/ Bigiq.provider_transport ctx = Some "rest" ->
   Bigiq.run conn get_prompt send_command rounds ctx c
   = Some (Bigiq.Delegated None c, []))
  /\ (Bigiq.pc_connection ctx = "network_cli" ->
      forall res tr,
        Bigiq.run conn get_prompt send_command rounds ctx c = Some (res, tr) ->
        (exists c', res = Bigiq.Delegated None c')
        /\ exists outs last,
             tr = ((if Bigiq.provider_any ctx then [Bigiq.Warn] else [])
                   ++ rounds_trace outs last)%list
             /\ Forall (fun o => Bigiq.in_config o = true) outs
             /\ Bigiq.in_config last = false).
Proof.
  split.
  - intros Hn Hrest. unfold Bigiq.run.
    apply String.eqb_neq in Hn. rewrite Hn.
    assert (Hl : (String.eqb (Bigiq.pc_connection ctx) "local"
                  && String.eqb (Bigiq.transport_of ctx) "cli")%bool = false).
    { unfold Bigiq.transport_of.
      destruct (String.eqb (Bigiq.pc_connection ctx) "local") eqn:E;
        [|reflexivity].
      destruct Hrest as [H|[H|[H|H]]].
      - apply String.eqb_neq in H. congruence.
      - now rewrite H.
      - now rewrite H.
      - now rewrite H. }
    rewrite Hl. reflexivity.
  - intros Hn res tr. unfold Bigiq.run, Bigiq.transport_of. rewrite Hn.
    cbn [String.eqb Ascii.eqb Bool.eqb andb orb negb app].
    destruct (get_prompt c) as [out c1].
    destruct (Bigiq.leave_config conn get_prompt send_command rounds out c1)
      as [[c2 tr']|] eqn:L; [|discriminate].
    intros [= <- <-]. split; [now exists c2|].
    destruct (leave_config_trace _ _ _ _ _ _ _ _ L)
      as (outs & last & Htr & Hall & Hlast).
    exists outs, last. repeat split; auto. now rewrite <- Htr.
Qed.

Lemma run_on_other_connections_witness :
  Bigiq.run nat nested_prompt nested_send 0
    {| Bigiq.pc_connection := "local"; Bigiq.provider_any := true;
       Bigiq.provider_transport := None; Bigiq.persistent_socket := None;
       Bigiq.connection_socket := None |} 3%nat
  = Some (Bigiq.Delegated None 3%nat, []).
Proof.
  apply (run_on_other_connections nat nested_prompt nested_send 0
           {| Bigiq.pc_connection := "local"; Bigiq.provider_any := true;
              Bigiq.provider_transport := None; Bigiq.persistent_socket := None;
              Bigiq.connection_socket := None |} 3%nat).
  - discriminate.
  - right. now left.
Defined.
